(** * klipper_tmc_autotune: the motor model and the tuning engine

    A shallow embedding of [motor_constants.py] and [autotune_tmc.py].
    Python floats are IEEE binary64 values (Rocq's primitive [float]),
    Python ints are [Z], Python strings are held as their UTF-8 bytes,
    exceptions are an explicit error result, and the calls to
    [_set_driver_field] are recorded as an ordered trace. *)

From Stdlib Require Import ZArith List String Ascii Bool Lia.
From Stdlib Require Import Floats.
Import ListNotations.

Set Warnings "-inexact-float".

Local Open Scope string_scope.
Local Open Scope list_scope.
Local Open Scope Z_scope.

(** ** The fragment of the Python runtime the two files use *)

Module Py.

(** The exceptions the modelled code can raise.  [ConfigError] stands for
    the host's [config.error] / [printer.config_error], carrying the name
    of the offending option or object; [AttributeError] carries the name
    of the attribute that was read and is not there. *)
Inductive exn : Type :=
| ConfigError (what : string)
| ZeroDivisionError
| OverflowError
| ValueError
| AttributeError (attr : string).

Inductive result (A : Type) : Type :=
| Ok (a : A)
| Raise (e : exn).

Arguments Ok {A} a.
Arguments Raise {A} e.

Definition bind {A B : Type} (c : result A) (k : A -> result B) : result B :=
  match c with
  | Ok a => k a
  | Raise e => Raise e
  end.

Notation "x <- c ;; k" := (bind c (fun x => k))
  (at level 61, c at next level, right associativity).

(** [math.pi], the binary64 value nearest to pi. *)
Definition math_pi : float := 3.141592653589793%float.

(** [a / b] on floats: Python raises on a zero divisor (of either sign)
    where IEEE arithmetic would give an infinity or a NaN. *)
Definition truediv (a b : float) : result float :=
  if (b =? 0)%float then Raise ZeroDivisionError else Ok (a / b)%float.

(** An int used in float arithmetic is converted first, rounding to the
    nearest binary64 value; an int beyond the float range raises. *)
Definition float_of_int (z : Z) : result float :=
  let f := SF2Prim (binary_normalize prec emax z 0 false) in
  if is_infinity f then Raise OverflowError else Ok f.

(** [math.ceil x] for a float [x]: an exact Python int; NaN and the
    infinities raise. *)
Definition math_ceil (x : float) : result Z :=
  match Prim2SF x with
  | S754_nan => Raise ValueError
  | S754_infinity _ => Raise OverflowError
  | S754_zero _ => Ok 0
  | S754_finite s m e =>
      if 0 <=? e then
        Ok (if s then - (Zpos m * 2 ^ e) else Zpos m * 2 ^ e)
      else
        Ok (if s then - (Zpos m / 2 ^ (- e)) else - ((- Zpos m) / 2 ^ (- e)))
  end.

(** Builtin [max(a, b)] and [min(a, b)] on two floats: the first argument
    is kept unless the second compares strictly beyond it. *)
Definition max (a b : float) : float := if (a <? b)%float then b else a.
Definition min (a b : float) : float := if (b <? a)%float then b else a.

(** [x ** n] for a float base and an int exponent, by repeated
    multiplication.  It agrees with the C library's [pow] wherever the
    power is exactly representable, which covers [1.5 ** tbl] for every
    [tbl] the configuration admits (0..3). *)
Definition pow_pos (x : float) (p : positive) : float :=
  Pos.iter (fun acc => (acc * x)%float) 1%float p.

Definition pow (x : float) (n : Z) : result float :=
  match n with
  | Z0 => Ok 1%float
  | Zpos p =>
      let r := pow_pos x p in
      if is_infinity r && negb (is_infinity x) then Raise OverflowError else Ok r
  | Zneg p =>
      if (x =? 0)%float then Raise ZeroDivisionError
      else Ok (1 / pow_pos x p)%float
  end.

(** [str.lower] on the ASCII letters; other bytes are left alone. *)
Definition lower_ascii (c : ascii) : ascii :=
  let n := nat_of_ascii c in
  if ((65 <=? n) && (n <=? 90))%nat then ascii_of_nat (n + 32) else c.

Fixpoint lower (s : string) : string :=
  match s with
  | EmptyString => EmptyString
  | String c r => String (lower_ascii c) (lower r)
  end.

End Py.

Import Py.

(** ** The host's typed configuration accessor *)

Module Config.

(** A configuration section, with the options already parsed to the type
    their getter asks for. *)
Record section : Type := {
  floats : list (string * float);
  ints : list (string * Z)
}.

Fixpoint lookup {A : Type} (key : string) (l : list (string * A)) : option A :=
  match l with
  | [] => None
  | (k, v) :: r => if String.eqb k key then Some v else lookup key r
  end.

(** Modelled from the spec: the host accessor [get(name, default, min, max)]
    is not part of the two source files.  An absent option yields the
    default when there is one and a configuration error otherwise; a value
    below [minval] or above [maxval] is a configuration error naming the
    option; the bounds themselves are admitted. *)
Definition getfloat (c : section) (name : string) (default : option float)
    (minval maxval : option float) : result float :=
  match lookup name (floats c) with
  | None =>
      match default with
      | Some d => Ok d
      | None => Raise (ConfigError name)
      end
  | Some v =>
      if match minval with Some lo => (v <? lo)%float | None => false end
      then Raise (ConfigError name)
      else if match maxval with Some hi => (hi <? v)%float | None => false end
      then Raise (ConfigError name)
      else Ok v
  end.

(** Modelled from the spec: the integer counterpart of [getfloat]. *)
Definition getint (c : section) (name : string) (default : option Z)
    (minval maxval : option Z) : result Z :=
  match lookup name (ints c) with
  | None =>
      match default with
      | Some d => Ok d
      | None => Raise (ConfigError name)
      end
  | Some v =>
      if match minval with Some lo => v <? lo | None => false end
      then Raise (ConfigError name)
      else if match maxval with Some hi => hi <? v | None => false end
      then Raise (ConfigError name)
      else Ok v
  end.

End Config.

(** ** motor_constants.py *)

Module MotorConstants.

Record t : Type := {
  R : float;
  L : float;
  T : float;
  S : Z;
  I : float;
  cbemf : float
}.

(** [MotorConstants.__init__]: five bounded reads, then the back-EMF
    constant [T / (2.0 * I)]. *)
Definition __init__ (config : Config.section) : result t :=
  r <- Config.getfloat config "resistance" None (Some 0%float) None ;;
  l <- Config.getfloat config "inductance" None (Some 0%float) None ;;
  tq <- Config.getfloat config "holding_torque" None (Some 0%float) None ;;
  s <- Config.getint config "steps_per_revolution" None (Some 0) None ;;
  i <- Config.getfloat config "max_current" None (Some 0%float) None ;;
  cb <- truediv tq (2.0 * i)%float ;;
  Ok {| R := r; L := l; T := tq; S := s; I := i; cbemf := cb |}.

(** Default arguments of the methods below. *)
Definition default_fclk : float := 20e3%float.
Definition default_volts : float := 24.0%float.

Definition pwmgrad (self : t) (fclk : float) (steps : Z) (volts : float)
  : result Z :=
  let steps := if steps =? 0 then S self else steps in
  fsteps <- float_of_int steps ;;
  q <- truediv (cbemf self * 2 * math_pi * fclk * 1.46)%float
               (volts * 256.0 * fsteps)%float ;;
  math_ceil q.

Definition pwmofs (self : t) (volts : float) (current : float) : result Z :=
  let i := if (0.0 <? current)%float then current else (I self * 0.8)%float in
  q <- truediv (374 * R self * i)%float volts ;;
  math_ceil q.

Definition maxpwmrps (self : t) (fclk : float) (steps : Z) (volts : float)
    (current : float) : result float :=
  let steps := if steps =? 0 then S self else steps in
  ofs <- pwmofs self volts current ;;
  grad <- pwmgrad self fclk steps default_volts ;;
  fgrad <- float_of_int grad ;;
  num <- float_of_int (255 - ofs) ;;
  truediv num (math_pi * fgrad)%float.

(** The float handed to [math.ceil] in [hysteresis]:
    [max(0.5 + ((dcoilblank + dcoilsd) * 2 * 248 * 32 / I) / 32 - 8, -2)].
    When the int [-2] wins the comparison it is kept here as the float
    [-2.0], whose ceiling is the same int. *)
Definition hysteresis_operand (self : t) (fclk volts current : float)
    (tbl toff : Z) : result float :=
  let i := if (0.0 <? current)%float then current else (I self * 0.8)%float in
  p <- Py.pow 1.5%float tbl ;;
  tblank <- truediv (16.0 * p)%float fclk ;;
  ftoff <- float_of_int toff ;;
  tsd <- truediv (12.0 + 32.0 * ftoff)%float fclk ;;
  dcoilblank <- truediv (volts * tblank)%float (L self) ;;
  dcoilsd <- truediv (R self * i * 2.0 * tsd)%float (L self) ;;
  x <- truediv ((dcoilblank + dcoilsd) * 2 * 248 * 32)%float i ;;
  y <- truediv x 32%float ;;
  Ok (Py.max (0.5 + y - 8)%float (-2)%float).

(** The value bound to the local [hysteresis] (before any clamp). *)
Definition hysteresis_raw (self : t) (extra : Z) (fclk volts current : float)
    (tbl toff : Z) : result Z :=
  x <- hysteresis_operand self fclk volts current tbl toff ;;
  n <- math_ceil x ;;
  Ok (extra + n).

(** The clamp chain on the raw value. *)
Definition htotal_of (raw : Z) : Z := Z.min raw 14.
Definition hstrt_of (htotal : Z) : Z := Z.max (Z.min htotal 8) 1.
Definition hend_of (htotal hstrt : Z) : Z := Z.min (htotal - hstrt) 12.

Definition hysteresis (self : t) (extra : Z) (fclk volts current : float)
    (tbl toff : Z) : result (Z * Z) :=
  raw <- hysteresis_raw self extra fclk volts current tbl toff ;;
  let htotal := htotal_of raw in
  let hstrt := hstrt_of htotal in
  let hend := hend_of htotal hstrt in
  Ok (hstrt - 1, hend + 3).

End MotorConstants.

(** ** autotune_tmc.py *)

Module AutotuneTMC.

(** Module-level constants. *)
Definition TUNING_GOAL : string := "auto".
Definition EXTRA_HYSTERESIS : Z := 0.

Definition AUTO_PERFORMANCE_MOTORS : list string :=
  ["stepper_x"; "stepper_y"; "stepper_x1"; "stepper_y1";
   "stepper_a"; "stepper_b"; "stepper_c"].

(** [name in AUTO_PERFORMANCE_MOTORS] *)
Definition in_set (name : string) (set : list string) : bool :=
  existsb (String.eqb name) set.

Inductive TuningGoal : Type :=
| AUTO
| AUTOSWITCH
| SILENT
| PERFORMANCE.

Definition goal_eqb (a b : TuningGoal) : bool :=
  match a, b with
  | AUTO, AUTO | AUTOSWITCH, AUTOSWITCH
  | SILENT, SILENT | PERFORMANCE, PERFORMANCE => true
  | _, _ => false
  end.

(** [TuningGoal(tgoal)]: lookup of an enum member by its value. *)
Definition TuningGoal_of (tgoal : string) : result TuningGoal :=
  if String.eqb tgoal "auto" then Ok AUTO
  else if String.eqb tgoal "autoswitch" then Ok AUTOSWITCH
  else if String.eqb tgoal "silent" then Ok SILENT
  else if String.eqb tgoal "performance" then Ok PERFORMANCE
  else Raise ValueError.

(** The G-code command object, with its parameters already split by the
    type the handler reads them at. *)
Record GCodeCommand : Type := {
  str_params : list (string * string);
  int_params : list (string * Z)
}.

(** Modelled from the spec: [gcmd.get(name, default)] of the host, the
    parameter when the command carries it and the default otherwise. *)
Definition gcmd_get (gcmd : GCodeCommand) (name default : string) : string :=
  match Config.lookup name (str_params gcmd) with
  | Some v => v
  | None => default
  end.

(** Modelled from the spec: [gcmd.get_int(name, None)] of the host. *)
Definition gcmd_get_int (gcmd : GCodeCommand) (name : string) : option Z :=
  Config.lookup name (int_params gcmd).

(** An object of the host that the engine only looks up and stores, told
    apart by an identifier. *)
Definition host_object : Type := string.

(** Modelled from the spec: the host's table of loaded objects, as far as
    [handle_connect] looks into it.  [lookup_object(name)] answers the
    object kept under [name] and raises a configuration error when there
    is none: [motors] are the objects kept under the names of motor
    definitions, which are [MotorConstants] objects, [drivers] the objects
    kept under the names of driver sections.  [get_status_self] is the
    outcome of reading [get_status.__self__] on a driver object: the
    command helper that method is bound to, or the exception the read
    raises. *)
Record Printer : Type := {
  motors : string -> option MotorConstants.t;
  drivers : string -> option host_object;
  get_status_self : host_object -> result host_object
}.

(** The attributes of an [AutotuneTMC] object that its handlers read or
    assign. *)
Record t : Type := {
  name : string;
  motor_name : string;
  tuning_goal : TuningGoal;
  auto_silent : bool;
  fclk : option float;
  motor_object : option MotorConstants.t;
  extra_hysteresis : Z;
  tbl : Z;
  toff : option Z;
  voltage : float;
  pwm_freq_target : float;
  driver_name : string;
  tmc_object : option host_object;
  tmc_cmdhelper : option host_object
}.

Definition with_tuning_goal (g : TuningGoal) (self : t) : t :=
  {| name := name self; motor_name := motor_name self; tuning_goal := g;
     auto_silent := auto_silent self; fclk := fclk self;
     motor_object := motor_object self;
     extra_hysteresis := extra_hysteresis self; tbl := tbl self;
     toff := toff self; voltage := voltage self;
     pwm_freq_target := pwm_freq_target self;
     driver_name := driver_name self; tmc_object := tmc_object self;
     tmc_cmdhelper := tmc_cmdhelper self |}.

Definition with_auto_silent (b : bool) (self : t) : t :=
  {| name := name self; motor_name := motor_name self;
     tuning_goal := tuning_goal self; auto_silent := b; fclk := fclk self;
     motor_object := motor_object self;
     extra_hysteresis := extra_hysteresis self; tbl := tbl self;
     toff := toff self; voltage := voltage self;
     pwm_freq_target := pwm_freq_target self;
     driver_name := driver_name self; tmc_object := tmc_object self;
     tmc_cmdhelper := tmc_cmdhelper self |}.

Definition with_fclk (f : option float) (self : t) : t :=
  {| name := name self; motor_name := motor_name self;
     tuning_goal := tuning_goal self; auto_silent := auto_silent self;
     fclk := f; motor_object := motor_object self;
     extra_hysteresis := extra_hysteresis self; tbl := tbl self;
     toff := toff self; voltage := voltage self;
     pwm_freq_target := pwm_freq_target self;
     driver_name := driver_name self; tmc_object := tmc_object self;
     tmc_cmdhelper := tmc_cmdhelper self |}.

Definition with_motor_object (m : option MotorConstants.t) (self : t) : t :=
  {| name := name self; motor_name := motor_name self;
     tuning_goal := tuning_goal self; auto_silent := auto_silent self;
     fclk := fclk self; motor_object := m;
     extra_hysteresis := extra_hysteresis self; tbl := tbl self;
     toff := toff self; voltage := voltage self;
     pwm_freq_target := pwm_freq_target self;
     driver_name := driver_name self; tmc_object := tmc_object self;
     tmc_cmdhelper := tmc_cmdhelper self |}.

Definition with_extra_hysteresis (e : Z) (self : t) : t :=
  {| name := name self; motor_name := motor_name self;
     tuning_goal := tuning_goal self; auto_silent := auto_silent self;
     fclk := fclk self; motor_object := motor_object self;
     extra_hysteresis := e; tbl := tbl self;
     toff := toff self; voltage := voltage self;
     pwm_freq_target := pwm_freq_target self;
     driver_name := driver_name self; tmc_object := tmc_object self;
     tmc_cmdhelper := tmc_cmdhelper self |}.

Definition with_tmc_object (o : option host_object) (self : t) : t :=
  {| name := name self; motor_name := motor_name self;
     tuning_goal := tuning_goal self; auto_silent := auto_silent self;
     fclk := fclk self; motor_object := motor_object self;
     extra_hysteresis := extra_hysteresis self; tbl := tbl self;
     toff := toff self; voltage := voltage self;
     pwm_freq_target := pwm_freq_target self;
     driver_name := driver_name self; tmc_object := o;
     tmc_cmdhelper := tmc_cmdhelper self |}.

Definition with_tmc_cmdhelper (o : option host_object) (self : t) : t :=
  {| name := name self; motor_name := motor_name self;
     tuning_goal := tuning_goal self; auto_silent := auto_silent self;
     fclk := fclk self; motor_object := motor_object self;
     extra_hysteresis := extra_hysteresis self; tbl := tbl self;
     toff := toff self; voltage := voltage self;
     pwm_freq_target := pwm_freq_target self;
     driver_name := driver_name self; tmc_object := tmc_object self;
     tmc_cmdhelper := o |}.

(** A value handed to [_set_driver_field]. *)
Inductive pyval : Type :=
| VBool (b : bool)
| VInt (n : Z)
| VFloat (x : float).

(** One call [_set_driver_field(field, value)]. *)
Definition call : Type := (string * pyval)%type.

(** Methods run on [self], may raise, and leave an ordered trace of the
    fields they applied. *)
Definition M (A : Type) : Type := t -> result (A * t * list call).

Definition ret {A : Type} (a : A) : M A := fun self => Ok (a, self, []).

Definition mbind {A B : Type} (c : M A) (k : A -> M B) : M B :=
  fun self =>
    match c self with
    | Raise e => Raise e
    | Ok (a, self1, log1) =>
        match k a self1 with
        | Raise e => Raise e
        | Ok (b, self2, log2) => Ok (b, self2, log1 ++ log2)
        end
    end.

Definition get_self : M t := fun self => Ok (self, self, []).
Definition assign (f : t -> t) : M unit := fun self => Ok (tt, f self, []).
Definition raise {A : Type} (e : exn) : M A := fun _ => Raise e.

(** A call that does not touch [self]: its value, or its exception. *)
Definition call_out {A : Type} (r : result A) : M A :=
  fun self =>
    match r with
    | Ok a => Ok (a, self, [])
    | Raise e => Raise e
    end.

(** [printer.lookup_object(name)] on a table of the host. *)
Definition lookup_object {A : Type} (table : string -> option A)
    (name : string) : result A :=
  match table name with
  | Some o => Ok o
  | None => Raise (ConfigError name)
  end.

Notation "x <~ c ;; k" := (mbind c (fun x => k))
  (at level 61, c at next level, right associativity).
Notation "c ;;; k" := (mbind c (fun _ => k))
  (at level 61, right associativity).

(** [_set_driver_field] is a placeholder in the source (its body is
    [pass]); each call is recorded, in order, as the pair it was given. *)
Definition _set_driver_field (field : string) (value : pyval) : M unit :=
  fun self => Ok (tt, self, [(field, value)]).

Definition set_stealthchop_mode (goal : TuningGoal) : M unit :=
  if goal_eqb goal SILENT then
    _set_driver_field "en_pwm_mode" (VBool true) ;;;
    _set_driver_field "en_spreadcycle" (VBool false)
  else
    _set_driver_field "en_pwm_mode" (VBool false) ;;;
    _set_driver_field "en_spreadcycle" (VBool true).

Definition adjust_pwm_freq : M unit :=
  self <~ get_self ;;
  let pwm_freq :=
    if goal_eqb (tuning_goal self) SILENT
    then Py.max 15e3%float (Py.min (pwm_freq_target self) 20e3%float)
    else pwm_freq_target self in
  _set_driver_field "pwm_freq" (VFloat pwm_freq).

Definition smooth_acceleration : M unit :=
  _set_driver_field "semax" (VInt 3) ;;;
  _set_driver_field "semin" (VInt 1) ;;;
  _set_driver_field "seup" (VInt 4) ;;;
  _set_driver_field "sedn" (VInt 2).

Definition tune_driver : M unit :=
  self <~ get_self ;;
  if goal_eqb (tuning_goal self) SILENT then
    set_stealthchop_mode (tuning_goal self) ;;;
    adjust_pwm_freq ;;;
    smooth_acceleration
  else if goal_eqb (tuning_goal self) PERFORMANCE then
    set_stealthchop_mode (tuning_goal self) ;;;
    adjust_pwm_freq ;;;
    smooth_acceleration
  else ret tt.

(** [handle_connect]; [printer] is the host's table of loaded objects.
    The driver object and its command helper are looked up and stored
    first; either read can raise, and nothing catches it.  Any failure of
    the motor lookup is turned into a configuration error naming the
    motor. *)
Definition handle_connect (printer : Printer) : M unit :=
  self <~ get_self ;;
  tmc <~ call_out (lookup_object (drivers printer) (driver_name self)) ;;
  assign (with_tmc_object (Some tmc)) ;;;
  helper <~ call_out (get_status_self printer tmc) ;;
  assign (with_tmc_cmdhelper (Some helper)) ;;;
  match lookup_object (motors printer) (motor_name self) with
  | Raise _ => raise (ConfigError (motor_name self))
  | Ok motor =>
      (if goal_eqb (tuning_goal self) AUTO then
         assign (with_auto_silent
                   (negb (in_set (name self) AUTO_PERFORMANCE_MOTORS)
                    && (0.3 <? MotorConstants.T motor)%float)) ;;;
         self1 <~ get_self ;;
         assign (with_tuning_goal
                   (if auto_silent self1 then SILENT else PERFORMANCE))
       else ret tt) ;;;
      motor_object <~ call_out (lookup_object (motors printer)
                                  (motor_name self)) ;;
      assign (with_motor_object (Some motor_object))
  end.

(** [handle_ready]; [tmc_frequency] is the outcome of
    [self.tmc_object.mcu_tmc.get_tmc_frequency()]: [None] when an
    attribute on the way is missing, as it is while [tmc_object] is still
    None (the AttributeError is swallowed and [fclk] keeps its value),
    [Some v] when the driver answers [v], which may itself be [None].
    [tmc_init_registers] is never assigned, so its branch is dead. *)
Definition handle_ready (tmc_frequency : option (option float)) : M unit :=
  (match tmc_frequency with
   | Some v => assign (with_fclk v)
   | None => ret tt
   end) ;;;
  self <~ get_self ;;
  (match fclk self with
   | None => assign (with_fclk (Some 12.5e6%float))
   | Some _ => ret tt
   end) ;;;
  tune_driver.

(** [cmd_AUTOTUNE_TMC].  [tgoal] is a string, so the test
    [tgoal is not None] always passes; [TuningGoal(tgoal)] can only raise
    ValueError, which the handler swallows. *)
Definition cmd_AUTOTUNE_TMC (gcmd : GCodeCommand) : M unit :=
  let tgoal := lower (gcmd_get gcmd "TUNING_GOAL" TUNING_GOAL) in
  (match TuningGoal_of tgoal with
   | Ok g => assign (with_tuning_goal g)
   | Raise _ => ret tt
   end) ;;;
  self <~ get_self ;;
  (if goal_eqb (tuning_goal self) AUTO then
     assign (with_tuning_goal
               (if auto_silent self then SILENT else PERFORMANCE))
   else ret tt) ;;;
  (match gcmd_get_int gcmd "EXTRA_HYSTERESIS" with
   | Some extra_hysteresis =>
       if (extra_hysteresis >=? 0) || (extra_hysteresis <=? 8)
       then assign (with_extra_hysteresis extra_hysteresis)
       else ret tt
   | None => ret tt
   end) ;;;
  tune_driver.

(** The names an [AutotuneTMC] object answers to: the attributes that
    [__init__] assigns and the names the class body binds. *)
Definition attributes : list string :=
  ["printer"; "name"; "tmc_section"; "driver_name"; "driver_type";
   "_set_driver_velocity_field"; "motor"; "motor_name"; "tuning_goal";
   "auto_silent"; "tmc_object"; "tmc_cmdhelper"; "tmc_init_registers";
   "run_current"; "fclk"; "motor_object"; "extra_hysteresis"; "tbl"; "toff";
   "tpfd"; "sgt"; "sg4_thrs"; "voltage"; "overvoltage_vth";
   "pwm_freq_target"; "__init__"; "handle_connect"; "handle_ready";
   "cmd_AUTOTUNE_TMC_help"; "cmd_AUTOTUNE_TMC"; "tune_driver";
   "adjust_pwm_freq"; "pwmgrad"; "set_stealthchop_mode";
   "smooth_acceleration"; "_set_driver_field"].

(** [self.<attr>] for a name outside [attributes]: the object has no such
    attribute and the read raises AttributeError naming it. *)
Definition no_attribute {A : Type} (attr : string) : result A :=
  Raise (AttributeError attr).

(** [AutotuneTMC.pwmgrad].  The method reads [self.S] and [self.cbemf],
    which are attributes of [MotorConstants] objects and not among the
    [attributes] of this class.  [self.cbemf] is the first operand the
    return expression evaluates. *)
Definition pwmgrad (self : t) (fclk : float) (steps : Z) (volts : float)
  : result Z :=
  steps <- (if steps =? 0 then no_attribute "S" else Ok steps) ;;
  let smooth_factor := 1.3%float in
  cbemf <- no_attribute "cbemf" ;;
  fsteps <- float_of_int steps ;;
  q <- truediv (cbemf * 2 * math_pi * fclk * smooth_factor)%float
               (volts * 256.0 * fsteps)%float ;;
  math_ceil q.

End AutotuneTMC.

(** ** autotune_tmc.py: the constructor *)

Module AutotuneInit.

(** What the constructor can raise: an exception of the kinds above, the
    IndexError of [[][-1]], the KeyError of a dictionary lookup, and the
    AttributeError of reading a method the class does not define. *)
Inductive exn : Type :=
| Host (e : Py.exn)
| IndexError
| KeyError (key : string)
| AttributeError (attr : string).

Inductive outcome (A : Type) : Type :=
| Done (a : A)
| Fail (e : exn).

Arguments Done {A} a.
Arguments Fail {A} e.

Definition obind {A B : Type} (c : outcome A) (k : A -> outcome B)
  : outcome B :=
  match c with
  | Done a => k a
  | Fail e => Fail e
  end.

Notation "x <== c ;; k" := (obind c (fun x => k))
  (at level 61, c at next level, right associativity).

Definition lift {A : Type} (r : result A) : outcome A :=
  match r with
  | Ok a => Done a
  | Raise e => Fail (Host e)
  end.

Definition TRINAMIC_DRIVERS : list string :=
  ["tmc2130"; "tmc2208"; "tmc2209"; "tmc2240"; "tmc2660"; "tmc5160"].

Definition PWM_FREQ_TARGETS : list (string * float) :=
  [("tmc2130", 55e3%float); ("tmc2208", 55e3%float); ("tmc2209", 55e3%float);
   ("tmc2240", 20e3%float); ("tmc2660", 55e3%float); ("tmc5160", 55e3%float)].

(** The whitespace of [str.split]: the characters [str.isspace] holds of,
    U+0009..U+000D, U+001C..U+0020, U+0085, U+00A0, U+1680,
    U+2000..U+200A, U+2028, U+2029, U+202F, U+205F and U+3000, in their
    UTF-8 encodings of one, two and three bytes. *)
Definition is_space_1 (a : nat) : bool :=
  (((9 <=? a) && (a <=? 13)) || ((28 <=? a) && (a <=? 32)))%nat.

Definition is_space_2 (a b : nat) : bool :=
  ((a =? 194) && ((b =? 133) || (b =? 160)))%nat.

Definition is_space_3 (a b c : nat) : bool :=
  (((a =? 225) && (b =? 154) && (c =? 128))
   || ((a =? 226) && (b =? 128)
       && (((128 <=? c) && (c <=? 138))
           || (c =? 168) || (c =? 169) || (c =? 175)))
   || ((a =? 226) && (b =? 129) && (c =? 159))
   || ((a =? 227) && (b =? 128) && (c =? 128)))%nat.

(** The number of bytes of the whitespace character a string starts with,
    0 when it starts with none. *)
Definition is_space (s : string) : nat :=
  match s with
  | EmptyString => 0
  | String a r1 =>
      if is_space_1 (nat_of_ascii a) then 1
      else
        match r1 with
        | EmptyString => 0
        | String b r2 =>
            if is_space_2 (nat_of_ascii a) (nat_of_ascii b) then 2
            else
              match r2 with
              | EmptyString => 0
              | String c _ =>
                  if is_space_3 (nat_of_ascii a) (nat_of_ascii b)
                       (nat_of_ascii c)
                  then 3 else 0
              end
        end
  end%nat.

(** The string without its leading whitespace characters. *)
Fixpoint skip_spaces (s : string) : string :=
  match s with
  | EmptyString => EmptyString
  | String a r1 =>
      if is_space_1 (nat_of_ascii a) then skip_spaces r1
      else
        match r1 with
        | EmptyString => s
        | String b r2 =>
            if is_space_2 (nat_of_ascii a) (nat_of_ascii b)
            then skip_spaces r2
            else
              match r2 with
              | EmptyString => s
              | String c r3 =>
                  if is_space_3 (nat_of_ascii a) (nat_of_ascii b)
                       (nat_of_ascii c)
                  then skip_spaces r3 else s
              end
        end
  end.

(** The leading run of non-space characters, and what follows it.  A byte
    inside a character starts no whitespace character, so the run is
    walked a byte at a time. *)
Fixpoint span_word (s : string) : string * string :=
  match s with
  | EmptyString => (EmptyString, EmptyString)
  | String c r =>
      match is_space s with
      | O => let (w, rest) := span_word r in (String c w, rest)
      | _ => (EmptyString, s)
      end
  end.

(** [s.split(None, 1)]: at most one split at a run of whitespace; the
    second piece runs to the end of the string. *)
Definition split_1 (s : string) : list string :=
  match skip_spaces s with
  | EmptyString => []
  | s1 =>
      let (w, r) := span_word s1 in
      match skip_spaces r with
      | EmptyString => [w]
      | r1 => [w; r1]
      end
  end.

(** [l[-1]] *)
Definition last_item (l : list string) : outcome string :=
  match rev l with
  | [] => Fail IndexError
  | x :: _ => Done x
  end.

(** The loop over TRINAMIC_DRIVERS: the first driver, in list order, whose
    section ["<driver> <name>"] exists, as (driver_type, driver_name). *)
Fixpoint find_driver (has_section : string -> bool) (name : string)
    (drivers : list string) : option (string * string) :=
  match drivers with
  | [] => None
  | driver :: rest =>
      let driver_name := (driver ++ " " ++ name)%string in
      if has_section driver_name then Some (driver, driver_name)
      else find_driver has_section name rest
  end.

(** What the constructor sees of its host: whether the motor database can
    be read and the sections it holds, the outcome of loading the object
    of each, the name of the autotune section, which sections the
    configuration has, whether [tmc.TMCtstepHelper] takes a [pstepper]
    parameter, and the options of the autotune section. *)
Record host : Type := {
  motor_database : option (list string);
  load_object : string -> result unit;
  get_name : string;
  has_section : string -> bool;
  tstep_helper_takes_pstepper : bool;
  strings : list (string * string);
  numbers : Config.section
}.

Fixpoint load_all (load : string -> result unit) (names : list string)
  : result unit :=
  match names with
  | [] => Ok tt
  | n :: rest => _ <- load n ;; load_all load rest
  end.

(** Modelled from the spec: the host's [config.get(name)] and
    [config.get(name, default)] on string options. *)
Definition get_string (h : host) (name : string) (default : option string)
  : result string :=
  match Config.lookup name (strings h) with
  | Some v => Ok v
  | None =>
      match default with
      | Some d => Ok d
      | None => Raise (ConfigError name)
      end
  end.

(** Modelled from the spec: [config.getint(name, default=None, ...)], where
    an absent option yields [None] and a present one is range-checked. *)
Definition getint_or_none (c : Config.section) (name : string)
    (minval maxval : option Z) : result (option Z) :=
  match Config.lookup name (Config.ints c) with
  | None => Ok None
  | Some _ => v <- Config.getint c name None minval maxval ;; Ok (Some v)
  end.

(** Modelled from the spec: the float counterpart of [getint_or_none]. *)
Definition getfloat_or_none (c : Config.section) (name : string)
    (minval maxval : option float) : result (option float) :=
  match Config.lookup name (Config.floats c) with
  | None => Ok None
  | Some _ => v <- Config.getfloat c name None minval maxval ;; Ok (Some v)
  end.

(** The parameter block of [__init__] (from [self.motor] to
    [self.pwm_freq_target]), on an object that already holds its [name]
    and the [driver_type] and [driver_name] the driver loop settled on.
    [tpfd], [sgt], [sg4_thrs] and [overvoltage_vth] are read and
    range-checked like the others; no handler reads them, and the object
    record does not carry them. *)
Definition read_parameters (h : host) (name driver_type driver_name : string)
  : outcome AutotuneTMC.t :=
  motor <== lift (get_string h "motor" None) ;;
  let motor_name := ("motor_constants " ++ motor)%string in
  tgoal <== lift (get_string h "tuning_goal" (Some AutotuneTMC.TUNING_GOAL)) ;;
  let tgoal := lower tgoal in
  tuning_goal <== match AutotuneTMC.TuningGoal_of tgoal with
                  | Ok g => Done g
                  | Raise _ => Fail (Host (ConfigError "tuning_goal"))
                  end ;;
  extra_hysteresis <== lift (Config.getint (numbers h) "extra_hysteresis"
                               (Some AutotuneTMC.EXTRA_HYSTERESIS)
                               (Some 0) (Some 8)) ;;
  tbl <== lift (Config.getint (numbers h) "tbl" (Some 1) (Some 0) (Some 3)) ;;
  toff <== lift (getint_or_none (numbers h) "toff" (Some 1) (Some 15)) ;;
  tpfd <== lift (getint_or_none (numbers h) "tpfd" (Some 0) (Some 15)) ;;
  sgt <== lift (Config.getint (numbers h) "sgt" (Some 1)
                  (Some (-64)) (Some 63)) ;;
  sg4_thrs <== lift (Config.getint (numbers h) "sg4_thrs" (Some 40)
                       (Some 0) (Some 255)) ;;
  voltage <== lift (Config.getfloat (numbers h) "voltage" (Some 24.0%float)
                      (Some 0.0%float) (Some 60.0%float)) ;;
  overvoltage_vth <== lift (getfloat_or_none (numbers h) "overvoltage_vth"
                              (Some 0.0%float) (Some 60.0%float)) ;;
  default_target <== match Config.lookup driver_type PWM_FREQ_TARGETS with
                     | Some f => Done f
                     | None => Fail (KeyError driver_type)
                     end ;;
  pwm_freq_target <== lift (Config.getfloat (numbers h) "pwm_freq_target"
                              (Some default_target)
                              (Some 10e3%float) (Some 100e3%float)) ;;
  Done {| AutotuneTMC.name := name;
          AutotuneTMC.motor_name := motor_name;
          AutotuneTMC.tuning_goal := tuning_goal;
          AutotuneTMC.auto_silent := false;
          AutotuneTMC.fclk := None;
          AutotuneTMC.motor_object := None;
          AutotuneTMC.extra_hysteresis := extra_hysteresis;
          AutotuneTMC.tbl := tbl;
          AutotuneTMC.toff := toff;
          AutotuneTMC.voltage := voltage;
          AutotuneTMC.pwm_freq_target := pwm_freq_target;
          AutotuneTMC.driver_name := driver_name;
          AutotuneTMC.tmc_object := None;
          AutotuneTMC.tmc_cmdhelper := None |}.

(** The choice of [_set_driver_velocity_field]: both branches read a
    method ([_set_driver_velocity_field_new], [_set_driver_velocity_field_old])
    that the class does not define. *)
Definition select_velocity_field (h : host) : outcome unit :=
  if tstep_helper_takes_pstepper h
  then Fail (AttributeError "_set_driver_velocity_field_new")
  else Fail (AttributeError "_set_driver_velocity_field_old").

(** [AutotuneTMC.__init__].  The registrations of the event handlers and
    of the command, which close the constructor, are left to the host. *)
Definition __init__ (h : host) : outcome AutotuneTMC.t :=
  match motor_database h with
  | None => Fail (Host (ConfigError "motor_database.cfg"))
  | Some motors =>
      _ <== lift (load_all (load_object h) motors) ;;
      name <== last_item (split_1 (get_name h)) ;;
      if negb (has_section h name) then Fail (Host (ConfigError name))
      else
        match find_driver (has_section h) name TRINAMIC_DRIVERS with
        | None => Fail (Host (ConfigError name))
        | Some (driver_type, driver_name) =>
            _ <== select_velocity_field h ;;
            read_parameters h name driver_type driver_name
        end
  end.

End AutotuneInit.

(** ** The formulas as the specification words them *)

(** [pwmGradient]: [ceil(cbemf * 2 pi * fclk * c / (volts * 256 * steps))]
    with smoothing constant [c], [steps] defaulting to [S] when unset. *)
Definition pwmgrad_formula (c : float) (S : Z) (cbemf fclk : float) (steps : Z)
    (volts : float) : result Z :=
  let steps := if steps =? 0 then S else steps in
  fsteps <- float_of_int steps ;;
  q <- truediv (cbemf * 2 * math_pi * fclk * c)%float
               (volts * 256.0 * fsteps)%float ;;
  math_ceil q.

(** [maxPwmRotationRate]: [(255 - pwmOffset) / (pi * pwmGradient)], offset
    and gradient both taken at the [volts] of the call. *)
Definition maxpwmrps_formula (self : MotorConstants.t) (fclk : float)
    (steps : Z) (volts current : float) : result float :=
  ofs <- MotorConstants.pwmofs self volts current ;;
  grad <- MotorConstants.pwmgrad self fclk steps volts ;;
  fgrad <- float_of_int grad ;;
  num <- float_of_int (255 - ofs) ;;
  truediv num (math_pi * fgrad)%float.

(** The value last applied to [field] in a trace, if any. *)
Definition applied (field : string) (log : list AutotuneTMC.call)
  : option AutotuneTMC.pyval :=
  Config.lookup field (rev log).

(** ** Sample data *)

(** The motor of the specification's examples: 2.0 ohm, 3 mH, 0.5 N.m,
    1.5 A, with 200 steps per revolution. *)
Definition sample_section : Config.section :=
  {| Config.floats := [("resistance", 2.0%float); ("inductance", 0.003%float);
                       ("holding_torque", 0.5%float);
                       ("max_current", 1.5%float)];
     Config.ints := [("steps_per_revolution", 200)] |}.

Definition sample_motor : MotorConstants.t :=
  {| MotorConstants.R := 2.0; MotorConstants.L := 0.003;
     MotorConstants.T := 0.5; MotorConstants.S := 200;
     MotorConstants.I := 1.5;
     MotorConstants.cbemf := (0.5 / (2.0 * 1.5))%float |}.

(** The same motor with a rated current of zero. *)
Definition zero_current_section : Config.section :=
  {| Config.floats := [("resistance", 2.0%float); ("inductance", 0.003%float);
                       ("holding_torque", 0.5%float);
                       ("max_current", 0.0%float)];
     Config.ints := [("steps_per_revolution", 200)] |}.

(** The same motor with a vanishing (but positive) inductance. *)
Definition tiny_inductance_motor : MotorConstants.t :=
  {| MotorConstants.R := 2.0; MotorConstants.L := 1e-310;
     MotorConstants.T := 0.5; MotorConstants.S := 200;
     MotorConstants.I := 1.5;
     MotorConstants.cbemf := (0.5 / (2.0 * 1.5))%float |}.

(** A Z axis after connect, resolved to SILENT, on a 55 kHz driver. *)
Definition sample_axis : AutotuneTMC.t :=
  {| AutotuneTMC.name := "stepper_z";
     AutotuneTMC.motor_name := "motor_constants sample";
     AutotuneTMC.tuning_goal := AutotuneTMC.SILENT;
     AutotuneTMC.auto_silent := true;
     AutotuneTMC.fclk := Some 12.5e6%float;
     AutotuneTMC.motor_object := Some sample_motor;
     AutotuneTMC.extra_hysteresis := 0;
     AutotuneTMC.tbl := 1;
     AutotuneTMC.toff := None;
     AutotuneTMC.voltage := 24.0;
     AutotuneTMC.pwm_freq_target := 55e3;
     AutotuneTMC.driver_name := "tmc2209 stepper_z";
     AutotuneTMC.tmc_object := Some "tmc2209 stepper_z";
     AutotuneTMC.tmc_cmdhelper := Some "tmc2209 stepper_z helper" |}.

(** An axis as configured, before connect: goal still AUTO. *)
Definition unconnected_axis (name : string) : AutotuneTMC.t :=
  {| AutotuneTMC.name := name;
     AutotuneTMC.motor_name := "motor_constants sample";
     AutotuneTMC.tuning_goal := AutotuneTMC.AUTO;
     AutotuneTMC.auto_silent := false;
     AutotuneTMC.fclk := None;
     AutotuneTMC.motor_object := None;
     AutotuneTMC.extra_hysteresis := 0;
     AutotuneTMC.tbl := 1;
     AutotuneTMC.toff := None;
     AutotuneTMC.voltage := 24.0;
     AutotuneTMC.pwm_freq_target := 55e3;
     AutotuneTMC.driver_name := ("tmc2209 " ++ name)%string;
     AutotuneTMC.tmc_object := None;
     AutotuneTMC.tmc_cmdhelper := None |}.

(** A host that keeps the sample motor, and for every tmc2209 section a
    driver object whose [get_status] is bound to a command helper. *)
Definition sample_printer : AutotuneTMC.Printer :=
  {| AutotuneTMC.motors :=
       fun name =>
         if String.eqb name "motor_constants sample"
         then Some sample_motor else None;
     AutotuneTMC.drivers :=
       fun name => if String.prefix "tmc2209 " name then Some name else None;
     AutotuneTMC.get_status_self :=
       fun driver => Ok (driver ++ " helper")%string |}.

(** The same host with the motor [motor] under every name. *)
Definition printer_with_motor (motor : MotorConstants.t)
  : AutotuneTMC.Printer :=
  {| AutotuneTMC.motors := fun _ => Some motor;
     AutotuneTMC.drivers := AutotuneTMC.drivers sample_printer;
     AutotuneTMC.get_status_self :=
       AutotuneTMC.get_status_self sample_printer |}.

(** ** Sample host *)

(** A configuration with [autotune_tmc stepper_x], [stepper_x] and both a
    [tmc2209 stepper_x] and a [tmc5160 stepper_x] section. *)
Definition sample_host : AutotuneInit.host :=
  {| AutotuneInit.motor_database := Some ["motor_constants sample"];
     AutotuneInit.load_object := fun _ => Ok tt;
     AutotuneInit.get_name := "autotune_tmc stepper_x";
     AutotuneInit.has_section :=
       fun n => existsb (String.eqb n)
                  ["stepper_x"; "tmc5160 stepper_x"; "tmc2209 stepper_x"];
     AutotuneInit.tstep_helper_takes_pstepper := true;
     AutotuneInit.strings := [("motor", "sample"); ("tuning_goal", "Silent")];
     AutotuneInit.numbers :=
       {| Config.floats := [("voltage", 48.0%float)];
          Config.ints := [("extra_hysteresis", 2); ("toff", 3)] |} |}.

(** What the parameter block builds from the sample host's options for
    the stepper [stepper_x] on a tmc2209. *)
Definition sample_parameters : AutotuneTMC.t :=
  {| AutotuneTMC.name := "stepper_x";
     AutotuneTMC.motor_name := "motor_constants sample";
     AutotuneTMC.tuning_goal := AutotuneTMC.SILENT;
     AutotuneTMC.auto_silent := false;
     AutotuneTMC.fclk := None;
     AutotuneTMC.motor_object := None;
     AutotuneTMC.extra_hysteresis := 2;
     AutotuneTMC.tbl := 1;
     AutotuneTMC.toff := Some 3;
     AutotuneTMC.voltage := 48.0;
     AutotuneTMC.pwm_freq_target := 55e3;
     AutotuneTMC.driver_name := "tmc2209 stepper_x";
     AutotuneTMC.tmc_object := None;
     AutotuneTMC.tmc_cmdhelper := None |}.

(** A string in which no whitespace character starts at any byte. *)
Fixpoint no_space (s : string) : bool :=
  match s with
  | EmptyString => true
  | String c r => Nat.eqb (AutotuneInit.is_space s) 0 && no_space r
  end.

(** ** Sequences of commands *)

(** The host hands the AUTOTUNE_TMC commands of one axis to
    [cmd_AUTOTUNE_TMC] one after the other, on the same object. *)
Fixpoint run_commands (cmds : list AutotuneTMC.GCodeCommand)
  : AutotuneTMC.M unit :=
  match cmds with
  | [] => AutotuneTMC.ret tt
  | gcmd :: rest =>
      AutotuneTMC.mbind (AutotuneTMC.cmd_AUTOTUNE_TMC gcmd)
        (fun _ => run_commands rest)
  end.

(** The command [gcmd] with its TUNING_GOAL parameter given as [goal]. *)
Definition with_goal_param (goal : string)
    (gcmd : AutotuneTMC.GCodeCommand) : AutotuneTMC.GCodeCommand :=
  {| AutotuneTMC.str_params :=
       ("TUNING_GOAL", goal) :: AutotuneTMC.str_params gcmd;
     AutotuneTMC.int_params := AutotuneTMC.int_params gcmd |}.

(** The names of the fields a trace applies, in order. *)
Definition fields_of (log : list AutotuneTMC.call) : list string :=
  map fst log.

(** A decoded float that is not below zero: a zero of either sign, a
    positive number, plus infinity, or NaN. *)
Definition not_negative (x : spec_float) : Prop :=
  match x with
  | S754_finite true _ _ | S754_infinity true => False
  | _ => True
  end.

(** The sample motor with no holding torque. *)
Definition zero_torque_motor : MotorConstants.t :=
  {| MotorConstants.R := 2.0; MotorConstants.L := 0.003;
     MotorConstants.T := 0.0; MotorConstants.S := 200;
     MotorConstants.I := 1.5;
     MotorConstants.cbemf := (0.0 / (2.0 * 1.5))%float |}.

(** The sample motor with no steps per revolution. *)
Definition zero_steps_motor : MotorConstants.t :=
  {| MotorConstants.R := 2.0; MotorConstants.L := 0.003;
     MotorConstants.T := 0.5; MotorConstants.S := 0;
     MotorConstants.I := 1.5;
     MotorConstants.cbemf := (0.5 / (2.0 * 1.5))%float |}.

(** The sample motor with no inductance. *)
Definition zero_inductance_motor : MotorConstants.t :=
  {| MotorConstants.R := 2.0; MotorConstants.L := 0.0;
     MotorConstants.T := 0.5; MotorConstants.S := 200;
     MotorConstants.I := 1.5;
     MotorConstants.cbemf := (0.5 / (2.0 * 1.5))%float |}.

(** The mantissa of the binary64 value of 0.8, whose exponent is -53. *)
Definition c08 : positive := 7205759403792794.

(** ** Proof support *)

Ltac run_method :=
  cbv [AutotuneTMC.tune_driver AutotuneTMC.set_stealthchop_mode
       AutotuneTMC.adjust_pwm_freq AutotuneTMC.smooth_acceleration
       AutotuneTMC._set_driver_field AutotuneTMC.mbind AutotuneTMC.ret
       AutotuneTMC.get_self AutotuneTMC.assign AutotuneTMC.raise
       AutotuneTMC.goal_eqb app].

(** The binary64 decoding of a float result, for telling two computed
    results apart. *)
Definition decode (r : result float) : option spec_float :=
  match r with
  | Ok x => Some (Prim2SF x)
  | Raise _ => None
  end.

Ltac run_cmd :=
  cbv [AutotuneTMC.cmd_AUTOTUNE_TMC AutotuneTMC.gcmd_get
       AutotuneTMC.TUNING_GOAL].

Ltac result_neq :=
  let H := fresh in
  intro H; apply (f_equal decode) in H; vm_compute in H; discriminate H.

Lemma in_set_In (n : string) (l : list string) :
  AutotuneTMC.in_set n l = true <-> In n l.
Proof.
  unfold AutotuneTMC.in_set. rewrite existsb_exists. split.
  - intros [x [Hx Heq]]. apply String.eqb_eq in Heq. now subst.
  - intros Hin. exists n. split; [assumption | apply String.eqb_refl].
Qed.

(** [tune_driver] never assigns to [self]. *)
Lemma tune_driver_frame (self : AutotuneTMC.t) :
  exists log, AutotuneTMC.tune_driver self = Ok (tt, self, log).
Proof.
  run_method. destruct (AutotuneTMC.tuning_goal self); eexists; reflexivity.
Qed.

(** ** Facts about binary64 arithmetic *)

Lemma positive_cases (x : float) :
  (0 <? x)%float = true ->
  (exists m e, Prim2SF x = S754_finite false m e) \/
  Prim2SF x = S754_infinity false.
Proof.
  rewrite ltb_spec.
  change (Prim2SF 0) with (S754_zero false).
  unfold SFltb, SFcompare.
  destruct (Prim2SF x) as [s | s | | s m e]; try destruct s;
    try discriminate; eauto.
Qed.

Lemma positive_nonzero (x : float) :
  (0 <? x)%float = true -> (x =? 0)%float = false.
Proof.
  intros Hpos. rewrite eqb_spec.
  change (Prim2SF 0) with (S754_zero false).
  destruct (positive_cases x Hpos) as [[m [e Hx]] | Hx]; rewrite Hx;
    reflexivity.
Qed.

Lemma shr_1_m (mrs : shr_record) :
  0 <= shr_m mrs -> shr_m (shr_1 mrs) = shr_m mrs / 2.
Proof.
  destruct mrs as [m r s]. cbn [shr_m]. intros Hm.
  destruct m as [| p | p]; [reflexivity | | lia].
  destruct p as [p | p |]; cbn [shr_1 shr_m].
  - rewrite (Pos2Z.inj_xI p). apply Z.div_unique with 1; lia.
  - rewrite (Pos2Z.inj_xO p). apply Z.div_unique with 0; lia.
  - reflexivity.
Qed.

Lemma pow2_xI (p : positive) : 2 ^ Zpos p~1 = 2 * 2 ^ Zpos p * 2 ^ Zpos p.
Proof.
  rewrite (Pos2Z.inj_xI p).
  replace (2 * Zpos p + 1) with (1 + Zpos p + Zpos p) by lia.
  do 2 (rewrite Z.pow_add_r by lia). reflexivity.
Qed.

Lemma pow2_xO (p : positive) : 2 ^ Zpos p~0 = 2 ^ Zpos p * 2 ^ Zpos p.
Proof.
  rewrite (Pos2Z.inj_xO p).
  replace (2 * Zpos p) with (Zpos p + Zpos p) by lia.
  rewrite Z.pow_add_r by lia. reflexivity.
Qed.

Lemma iter_pos_shr_m (p : positive) :
  forall mrs, 0 <= shr_m mrs ->
    shr_m (iter_pos shr_1 p mrs) = shr_m mrs / 2 ^ Zpos p.
Proof.
  assert (Hpow : forall q, 0 < 2 ^ Zpos q) by (intros; apply Z.pow_pos_nonneg; lia).
  assert (Hstep : forall mrs, 0 <= shr_m mrs -> 0 <= shr_m (shr_1 mrs)).
  { intros mrs H. rewrite shr_1_m by assumption.
    apply Z.div_pos; lia. }
  induction p as [p IH | p IH |]; intros mrs Hm; cbn [iter_pos].
  - assert (H1 : 0 <= shr_m (shr_1 mrs)) by auto.
    assert (H2 : 0 <= shr_m (iter_pos shr_1 p (shr_1 mrs))).
    { rewrite IH by assumption. apply Z.div_pos; [assumption | apply Hpow]. }
    rewrite IH by assumption. rewrite IH by assumption.
    rewrite shr_1_m by assumption.
    pose proof (Hpow p).
    rewrite !Z.div_div by lia.
    rewrite pow2_xI. f_equal. lia.
  - assert (H2 : 0 <= shr_m (iter_pos shr_1 p mrs)).
    { rewrite IH by assumption. apply Z.div_pos; [assumption | apply Hpow]. }
    rewrite IH by assumption. rewrite IH by assumption.
    pose proof (Hpow p).
    rewrite !Z.div_div by lia.
    rewrite pow2_xO. f_equal.
  - rewrite shr_1_m by assumption. reflexivity.
Qed.

Lemma digits2_pos_bounds (p : positive) :
  2 ^ (Zpos (digits2_pos p) - 1) <= Zpos p < 2 ^ Zpos (digits2_pos p).
Proof.
  induction p as [p IH | p IH |]; cbn [digits2_pos].
  - rewrite Pos2Z.inj_succ, (Pos2Z.inj_xI p).
    replace (Z.succ (Zpos (digits2_pos p)) - 1)
      with (Z.succ (Zpos (digits2_pos p) - 1)) by lia.
    rewrite (Z.pow_succ_r 2 (Zpos (digits2_pos p) - 1)) by lia.
    rewrite Z.pow_succ_r by lia. lia.
  - rewrite Pos2Z.inj_succ, (Pos2Z.inj_xO p).
    replace (Z.succ (Zpos (digits2_pos p)) - 1)
      with (Z.succ (Zpos (digits2_pos p) - 1)) by lia.
    rewrite (Z.pow_succ_r 2 (Zpos (digits2_pos p) - 1)) by lia.
    rewrite Z.pow_succ_r by lia. lia.
  - cbn. lia.
Qed.

Lemma round_nearest_even_ge (m : Z) (l : location) :
  m <= round_nearest_even m l.
Proof.
  unfold round_nearest_even. destruct l as [| []]; try lia.
  destruct (Z.even m); lia.
Qed.

Lemma fexp_ge_emin (z : Z) : -1074 <= fexp prec emax z.
Proof.
  unfold fexp, SpecFloat.emin, prec, emax. lia.
Qed.

Lemma shr_fexp_pos (m e : Z) :
  1 <= m -> -1074 <= e ->
  1 <= shr_m (fst (shr_fexp prec emax m e loc_Exact)).
Proof.
  intros Hm He. destruct m as [| q | q]; try lia.
  unfold shr_fexp, shr. cbn [Zdigits2 shr_record_of_loc].
  pose proof (digits2_pos_bounds q) as [Hlo _].
  destruct (fexp prec emax (Zpos (digits2_pos q) + e) - e) as [| k | k] eqn:Hn;
    cbn [fst shr_m]; try lia.
  rewrite iter_pos_shr_m by (cbn [shr_m]; lia). cbn [shr_m].
  apply Z.div_le_lower_bound; [apply Z.pow_pos_nonneg; lia |].
  rewrite Z.mul_1_r.
  apply Z.le_trans with (2 ^ (Zpos (digits2_pos q) - 1)); [| exact Hlo].
  apply Z.pow_le_mono_r; [lia |].
  unfold fexp, SpecFloat.emin, prec, emax in Hn. lia.
Qed.

Lemma mul_c08_first_shift (m : positive) (e : Z) (mrs : shr_record) (e1 : Z) :
  -1074 <= e ->
  2 <= Zpos m \/ -1073 <= e ->
  shr_fexp prec emax (Zpos (m * c08)) (e + -53) loc_Exact = (mrs, e1) ->
  1 <= shr_m mrs /\ -1074 <= e1.
Proof.
  intros He Hbig. unfold shr_fexp, shr. cbn [Zdigits2 shr_record_of_loc].
  pose proof (digits2_pos_bounds (m * c08)) as [Hlo _].
  pose proof (fexp_ge_emin (Zpos (digits2_pos (m * c08)) + (e + -53))) as Hfe.
  assert (HM : Zpos (m * c08) = Zpos m * 7205759403792794)
    by (rewrite Pos2Z.inj_mul; reflexivity).
  destruct (fexp prec emax (Zpos (digits2_pos (m * c08)) + (e + -53))
            - (e + -53)) as [| k | k] eqn:Hn;
    intros Heq; injection Heq as <- <-; cbn [shr_m]; try lia.
  split; [| lia].
  rewrite iter_pos_shr_m by (cbn [shr_m]; lia). cbn [shr_m].
  apply Z.div_le_lower_bound; [apply Z.pow_pos_nonneg; lia |].
  rewrite Z.mul_1_r.
  unfold fexp, SpecFloat.emin, prec, emax in Hn.
  destruct (Z.max_spec (Zpos (digits2_pos (m * c08)) + (e + -53) - 53)
              (3 - 1024 - 53)) as [[_ Hmax] | [_ Hmax]];
    rewrite Hmax in Hn.
  - (* subnormal range: the shift is -1021 - e *)
    destruct Hbig as [Hm2 | He2].
    + apply Z.le_trans with (2 ^ 53); [apply Z.pow_le_mono_r; lia |].
      change (2 ^ 53) with 9007199254740992. lia.
    + apply Z.le_trans with (2 ^ 52); [apply Z.pow_le_mono_r; lia |].
      change (2 ^ 52) with 4503599627370496. lia.
  - (* normal range: the shift is digits - 53 *)
    apply Z.le_trans with (2 ^ (Zpos (digits2_pos (m * c08)) - 1));
      [| exact Hlo].
    apply Z.pow_le_mono_r; lia.
Qed.

Lemma mul_c08_not_zero (m : positive) (e : Z) (s : bool) :
  bounded prec emax m e = true ->
  binary_round_aux prec emax false (Zpos (m * c08)) (e + -53) loc_Exact
    <> S754_zero s.
Proof.
  intros Hb. unfold bounded, canonical_mantissa in Hb.
  apply andb_true_iff in Hb. destruct Hb as [Hcanon _].
  apply Z.eqb_eq in Hcanon.
  assert (He : -1074 <= e) by (rewrite <- Hcanon; apply fexp_ge_emin).
  assert (Hcases : (m = 1%positive /\ e = -1074) \/ 2 <= Zpos m \/ -1073 <= e)
    by lia.
  destruct Hcases as [[-> ->] | Hbig].
  { intros H. vm_compute in H. discriminate H. }
  unfold binary_round_aux.
  destruct (shr_fexp prec emax (Zpos (m * c08)) (e + -53) loc_Exact)
    as [mrs1 e1] eqn:E1.
  destruct (mul_c08_first_shift m e mrs1 e1 He Hbig E1) as [Hm1 He1].
  pose proof (round_nearest_even_ge (shr_m mrs1) (loc_of_shr_record mrs1))
    as Hround.
  pose proof (shr_fexp_pos (round_nearest_even (shr_m mrs1)
                              (loc_of_shr_record mrs1)) e1
                ltac:(lia) He1) as Hpos.
  destruct (shr_fexp prec emax _ e1 loc_Exact) as [mrs2 e2].
  cbn [fst] in Hpos.
  destruct (shr_m mrs2) as [| q | q]; try lia.
  destruct (e2 <=? emax - prec); discriminate.
Qed.

Lemma mul_08_nonzero (x : float) :
  (0 <? x)%float = true -> (x * 0.8 =? 0)%float = false.
Proof.
  intros Hpos. rewrite eqb_spec, mul_spec.
  change (Prim2SF 0) with (S754_zero false).
  change (Prim2SF 0.8) with (S754_finite false c08 (-53)).
  pose proof (Prim2SF_valid x) as Hvalid.
  destruct (positive_cases x Hpos) as [[m [e Hx]] | Hx]; rewrite Hx in *.
  - cbn [valid_binary] in Hvalid.
    unfold SF64mul, SFmul. cbn [xorb].
    pose proof (fun s => mul_c08_not_zero m e s Hvalid) as Hnz.
    destruct (binary_round_aux prec emax false (Zpos (m * c08)) (e + -53)
                loc_Exact) as [s | s | | s q k];
      [exfalso; exact (Hnz s eq_refl) | | |];
      try destruct s; reflexivity.
  - reflexivity.
Qed.

Lemma is_zero_not_infinity (x : float) :
  is_zero x = true -> is_infinity x = false.
Proof.
  unfold is_zero, is_infinity. rewrite !eqb_spec, abs_spec.
  change (Prim2SF zero) with (S754_zero false).
  change (Prim2SF infinity) with (S754_infinity false).
  destruct (Prim2SF x) as [s | s | | s m e]; try destruct s;
    cbn; congruence.
Qed.

(** ** The tuning procedure *)

(** C6: for every state of the object, [tune_driver] leaves the state as it
    found it, so a second run straight after the first applies exactly the
    same ordered sequence of (field, value) pairs. *)
Theorem tune_driver_idempotent (self : AutotuneTMC.t) :
  exists log,
    AutotuneTMC.tune_driver self = Ok (tt, self, log) /\
    AutotuneTMC.mbind AutotuneTMC.tune_driver
      (fun _ => AutotuneTMC.tune_driver) self = Ok (tt, self, log ++ log).
Proof.
  destruct (tune_driver_frame self) as [log Hlog].
  exists log. split; [exact Hlog |].
  unfold AutotuneTMC.mbind. rewrite Hlog. rewrite Hlog. reflexivity.
Qed.

(** C8: when the goal is SILENT the tuning procedure applies
    [pwm_freq = max(15e3, min(pwm_freq_target, 20e3))], so that a target of
    55 kHz is applied as 20 kHz, 10 kHz as 15 kHz and 18 kHz as it is; when
    the goal is PERFORMANCE it applies the target itself. *)
Theorem tune_driver_pwm_freq (self : AutotuneTMC.t) :
  (AutotuneTMC.tuning_goal self = AutotuneTMC.SILENT ->
   exists log,
     AutotuneTMC.tune_driver self = Ok (tt, self, log) /\
     applied "pwm_freq" log =
       Some (AutotuneTMC.VFloat
               (Py.max 15e3 (Py.min (AutotuneTMC.pwm_freq_target self) 20e3)))) /\
  (AutotuneTMC.tuning_goal self = AutotuneTMC.PERFORMANCE ->
   exists log,
     AutotuneTMC.tune_driver self = Ok (tt, self, log) /\
     applied "pwm_freq" log =
       Some (AutotuneTMC.VFloat (AutotuneTMC.pwm_freq_target self))) /\
  Py.max 15e3 (Py.min 55e3 20e3) = 20e3%float /\
  Py.max 15e3 (Py.min 10e3 20e3) = 15e3%float /\
  Py.max 15e3 (Py.min 18e3 20e3) = 18e3%float.
Proof.
  repeat split; try reflexivity.
  - intros Hgoal. destruct self; cbn in Hgoal; subst.
    eexists. split; reflexivity.
  - intros Hgoal. destruct self; cbn in Hgoal; subst.
    eexists. split; reflexivity.
Qed.

(** The sample axis: SILENT with a 55 kHz target, applied as 20 kHz. *)
Lemma tune_driver_pwm_freq_witness :
  exists log,
    AutotuneTMC.tune_driver sample_axis = Ok (tt, sample_axis, log) /\
    applied "pwm_freq" log = Some (AutotuneTMC.VFloat 20e3).
Proof.
  exact (proj1 (tune_driver_pwm_freq sample_axis) eq_refl).
Defined.

(** C4 (as stated) fails: on the sample axis with its goal set to
    AUTOSWITCH the tuning procedure applies neither chopper-mode flag,
    although [set_stealthchop_mode], run for that goal, applies both. *)
Lemma tune_driver_autoswitch_counterexample :
  ~ (forall self : AutotuneTMC.t,
        AutotuneTMC.tuning_goal self = AutotuneTMC.AUTOSWITCH ->
        exists log mode,
          AutotuneTMC.tune_driver self = Ok (tt, self, log) /\
          AutotuneTMC.set_stealthchop_mode (AutotuneTMC.tuning_goal self) self
            = Ok (tt, self, mode) /\
          applied "en_pwm_mode" log = applied "en_pwm_mode" mode /\
          applied "en_spreadcycle" log = applied "en_spreadcycle" mode).
Proof.
  intros Hclaim.
  destruct (Hclaim (AutotuneTMC.with_tuning_goal AutotuneTMC.AUTOSWITCH
                      sample_axis) eq_refl)
    as [log [mode [Hrun [Hmode [Hpwm _]]]]].
  vm_compute in Hrun. vm_compute in Hmode.
  apply (f_equal (fun r => match r with
                           | Ok (_, _, l) => applied "en_pwm_mode" l
                           | Raise _ => None
                           end)) in Hrun, Hmode.
  cbn beta iota in Hrun, Hmode.
  rewrite <- Hrun, <- Hmode in Hpwm. vm_compute in Hpwm. discriminate Hpwm.
Qed.

(** C4 (as the code has it): with the goal AUTOSWITCH the tuning procedure
    applies no field at all and leaves the object as it was, however often
    it runs: [tune_driver] has a branch for SILENT and one for PERFORMANCE
    and none for AUTOSWITCH.  The chopper-mode selection the claim expects
    is there to be made: [set_stealthchop_mode], run for that goal, takes
    its else-branch and applies en_pwm_mode = False and
    en_spreadcycle = True; [tune_driver] never calls it. *)
Theorem tune_driver_autoswitch_applies_nothing (self : AutotuneTMC.t) :
  AutotuneTMC.tuning_goal self = AutotuneTMC.AUTOSWITCH ->
  AutotuneTMC.tune_driver self = Ok (tt, self, []) /\
  AutotuneTMC.mbind AutotuneTMC.tune_driver
    (fun _ => AutotuneTMC.tune_driver) self = Ok (tt, self, []) /\
  applied "en_pwm_mode" [] = None /\
  applied "en_spreadcycle" [] = None /\
  AutotuneTMC.set_stealthchop_mode (AutotuneTMC.tuning_goal self) self
    = Ok (tt, self, [("en_pwm_mode", AutotuneTMC.VBool false);
                     ("en_spreadcycle", AutotuneTMC.VBool true)]).
Proof.
  intros Hgoal.
  assert (Hrun : AutotuneTMC.tune_driver self = Ok (tt, self, [])).
  { run_method. rewrite Hgoal. reflexivity. }
  split; [exact Hrun |].
  split; [unfold AutotuneTMC.mbind; rewrite Hrun; rewrite Hrun; reflexivity |].
  split; [reflexivity |]. split; [reflexivity |].
  rewrite Hgoal. reflexivity.
Qed.

(** The sample axis with its goal set to AUTOSWITCH. *)
Lemma tune_driver_autoswitch_applies_nothing_witness :
  let self := AutotuneTMC.with_tuning_goal AutotuneTMC.AUTOSWITCH sample_axis in
  AutotuneTMC.tune_driver self = Ok (tt, self, []) /\
  AutotuneTMC.mbind AutotuneTMC.tune_driver
    (fun _ => AutotuneTMC.tune_driver) self = Ok (tt, self, []) /\
  applied "en_pwm_mode" [] = None /\
  applied "en_spreadcycle" [] = None /\
  AutotuneTMC.set_stealthchop_mode AutotuneTMC.AUTOSWITCH self
    = Ok (tt, self, [("en_pwm_mode", AutotuneTMC.VBool false);
                     ("en_spreadcycle", AutotuneTMC.VBool true)]).
Proof.
  exact (tune_driver_autoswitch_applies_nothing
           (AutotuneTMC.with_tuning_goal AutotuneTMC.AUTOSWITCH sample_axis)
           eq_refl).
Defined.

(** ** Goal resolution at connect time *)

(** [handle_connect] up to the motor lookup, when the driver object and
    its command helper are found. *)
Lemma handle_connect_driver_found
    (printer : AutotuneTMC.Printer) (self : AutotuneTMC.t)
    (driver helper : AutotuneTMC.host_object) :
  AutotuneTMC.drivers printer (AutotuneTMC.driver_name self) = Some driver ->
  AutotuneTMC.get_status_self printer driver = Ok helper ->
  AutotuneTMC.handle_connect printer self =
  match AutotuneTMC.motors printer (AutotuneTMC.motor_name self) with
  | None => Raise (ConfigError (AutotuneTMC.motor_name self))
  | Some motor =>
      let self1 :=
        AutotuneTMC.with_tmc_cmdhelper (Some helper)
          (AutotuneTMC.with_tmc_object (Some driver) self) in
      let self2 :=
        if AutotuneTMC.goal_eqb (AutotuneTMC.tuning_goal self) AutotuneTMC.AUTO
        then
          let silent :=
            negb (AutotuneTMC.in_set (AutotuneTMC.name self)
                    AutotuneTMC.AUTO_PERFORMANCE_MOTORS)
            && (0.3 <? MotorConstants.T motor)%float in
          AutotuneTMC.with_tuning_goal
            (if silent then AutotuneTMC.SILENT else AutotuneTMC.PERFORMANCE)
            (AutotuneTMC.with_auto_silent silent self1)
        else self1 in
      Ok (tt, AutotuneTMC.with_motor_object (Some motor) self2, [])
  end.
Proof.
  intros Hdriver Hhelper.
  unfold AutotuneTMC.handle_connect, AutotuneTMC.lookup_object,
    AutotuneTMC.call_out.
  run_method. rewrite Hdriver, Hhelper.
  destruct (AutotuneTMC.motors printer (AutotuneTMC.motor_name self))
    as [motor |]; [| reflexivity].
  destruct (AutotuneTMC.tuning_goal self); cbn; reflexivity.
Qed.

(** C5: when the driver object, its command helper and the motor
    definition are found, [handle_connect] turns a goal AUTO into SILENT
    exactly when the axis name is outside AUTO_PERFORMANCE_MOTORS and the
    motor torque compares above 0.3, and into PERFORMANCE in every other
    case; SILENT and PERFORMANCE (and AUTOSWITCH) are kept as they are. *)
Theorem handle_connect_resolves_goal
    (printer : AutotuneTMC.Printer)
    (self : AutotuneTMC.t) (motor : MotorConstants.t)
    (driver helper : AutotuneTMC.host_object) :
  AutotuneTMC.drivers printer (AutotuneTMC.driver_name self) = Some driver ->
  AutotuneTMC.get_status_self printer driver = Ok helper ->
  AutotuneTMC.motors printer (AutotuneTMC.motor_name self) = Some motor ->
  exists self',
    AutotuneTMC.handle_connect printer self = Ok (tt, self', []) /\
    match AutotuneTMC.tuning_goal self with
    | AutotuneTMC.AUTO =>
        (AutotuneTMC.tuning_goal self' = AutotuneTMC.SILENT <->
         ~ In (AutotuneTMC.name self) AutotuneTMC.AUTO_PERFORMANCE_MOTORS /\
         (0.3 <? MotorConstants.T motor)%float = true) /\
        (AutotuneTMC.tuning_goal self' = AutotuneTMC.PERFORMANCE <->
         In (AutotuneTMC.name self) AutotuneTMC.AUTO_PERFORMANCE_MOTORS \/
         (0.3 <? MotorConstants.T motor)%float = false)
    | g => AutotuneTMC.tuning_goal self' = g
    end.
Proof.
  intros Hdriver Hhelper Hmotor.
  rewrite (handle_connect_driver_found printer self driver helper
             Hdriver Hhelper), Hmotor.
  cbv zeta.
  destruct (AutotuneTMC.tuning_goal self) eqn:Hgoal.
  2-4: cbn; eexists; split; [reflexivity | cbn; assumption].
  pose proof (in_set_In (AutotuneTMC.name self)
                AutotuneTMC.AUTO_PERFORMANCE_MOTORS) as Hin.
  destruct (AutotuneTMC.in_set (AutotuneTMC.name self)
              AutotuneTMC.AUTO_PERFORMANCE_MOTORS) eqn:Hset;
    destruct (0.3 <? MotorConstants.T motor)%float eqn:Hcmp;
    cbn; eexists; (split; [reflexivity |]); cbn.
  - (* performance-preferred axis, torque above 0.3 *)
    split; split.
    + discriminate.
    + intros [Hout _]. exfalso. apply Hout, Hin. reflexivity.
    + intros _. left. apply Hin. reflexivity.
    + reflexivity.
  - (* performance-preferred axis, torque not above 0.3 *)
    split; split.
    + discriminate.
    + intros [_ Hc]. discriminate Hc.
    + intros _. right. reflexivity.
    + reflexivity.
  - (* other axis, torque above 0.3 *)
    split; split.
    + intros _. split; [| reflexivity].
      intros Hc. apply Hin in Hc. discriminate Hc.
    + reflexivity.
    + discriminate.
    + intros [Hc | Hc]; [apply Hin in Hc |]; discriminate Hc.
  - (* other axis, torque not above 0.3 *)
    split; split.
    + discriminate.
    + intros [_ Hc]. discriminate Hc.
    + intros _. right. reflexivity.
    + reflexivity.
Qed.

(** A Z axis with the 0.5 N.m sample motor and the goal AUTO. *)
Lemma handle_connect_resolves_goal_witness :
  exists self',
    AutotuneTMC.handle_connect sample_printer (unconnected_axis "stepper_z") =
      Ok (tt, self', []) /\
    (AutotuneTMC.tuning_goal self' = AutotuneTMC.SILENT <->
     ~ In "stepper_z" AutotuneTMC.AUTO_PERFORMANCE_MOTORS /\
     (0.3 <? 0.5)%float = true) /\
    (AutotuneTMC.tuning_goal self' = AutotuneTMC.PERFORMANCE <->
     In "stepper_z" AutotuneTMC.AUTO_PERFORMANCE_MOTORS \/
     (0.3 <? 0.5)%float = false).
Proof.
  exact (handle_connect_resolves_goal sample_printer
           (unconnected_axis "stepper_z") sample_motor
           "tmc2209 stepper_z" "tmc2209 stepper_z helper"
           eq_refl eq_refl eq_refl).
Defined.

(** The resolver examples of the specification: a performance-preferred
    axis resolves to PERFORMANCE whatever the torque; another axis resolves
    to SILENT at 0.5 N.m and to PERFORMANCE at 0.2 N.m. *)
Example resolve_auto_examples :
  let motor tq :=
    {| MotorConstants.R := 2.0; MotorConstants.L := 0.003;
       MotorConstants.T := tq; MotorConstants.S := 200;
       MotorConstants.I := 1.5; MotorConstants.cbemf := (tq / 3)%float |} in
  let goal_after name tq :=
    match AutotuneTMC.handle_connect (printer_with_motor (motor tq))
            (unconnected_axis name) with
    | Ok (_, self', _) => Some (AutotuneTMC.tuning_goal self')
    | Raise _ => None
    end in
  goal_after "stepper_x" 0.5%float = Some AutotuneTMC.PERFORMANCE /\
  goal_after "stepper_x" 5.0%float = Some AutotuneTMC.PERFORMANCE /\
  goal_after "stepper_z" 0.5%float = Some AutotuneTMC.SILENT /\
  goal_after "stepper_z" 0.2%float = Some AutotuneTMC.PERFORMANCE.
Proof.
  repeat split; reflexivity.
Qed.

(** ** The AUTOTUNE_TMC command *)

(** C10: a command that carries no TUNING_GOAL parameter does not keep the
    stored goal: the parameter defaults to 'auto', and the goal becomes the
    cached resolution of AUTO, SILENT when [auto_silent] is set and
    PERFORMANCE otherwise, whatever goal was stored before. *)
Theorem cmd_without_goal_resets_goal
    (gcmd : AutotuneTMC.GCodeCommand) (self : AutotuneTMC.t) :
  Config.lookup "TUNING_GOAL" (AutotuneTMC.str_params gcmd) = None ->
  exists self' log,
    AutotuneTMC.cmd_AUTOTUNE_TMC gcmd self = Ok (tt, self', log) /\
    AutotuneTMC.tuning_goal self' =
      (if AutotuneTMC.auto_silent self
       then AutotuneTMC.SILENT else AutotuneTMC.PERFORMANCE) /\
    AutotuneTMC.auto_silent self' = AutotuneTMC.auto_silent self.
Proof.
  intros Habsent. run_cmd. rewrite Habsent.
  destruct self as [n mn g a f mo eh tb tf v pf dn tob tch]; cbn.
  destruct (AutotuneTMC.gcmd_get_int gcmd "EXTRA_HYSTERESIS") as [x |];
    [destruct ((x >=? 0) || (x <=? 8)) |];
    destruct a; do 2 eexists; (split; [reflexivity | split; reflexivity]).
Qed.

(** An axis whose goal an earlier command set to PERFORMANCE, while the
    resolution cached at connect time was SILENT. *)
Lemma cmd_without_goal_resets_goal_witness :
  exists self' log,
    AutotuneTMC.cmd_AUTOTUNE_TMC
      {| AutotuneTMC.str_params := []; AutotuneTMC.int_params := [] |}
      (AutotuneTMC.with_tuning_goal AutotuneTMC.PERFORMANCE sample_axis) =
      Ok (tt, self', log) /\
    AutotuneTMC.tuning_goal self' = AutotuneTMC.SILENT /\
    AutotuneTMC.auto_silent self' = true.
Proof.
  exact (cmd_without_goal_resets_goal
           {| AutotuneTMC.str_params := []; AutotuneTMC.int_params := [] |}
           (AutotuneTMC.with_tuning_goal AutotuneTMC.PERFORMANCE sample_axis)
           eq_refl).
Defined.

(** C1 (as the code has it): whatever integer the command carries as
    EXTRA_HYSTERESIS is stored, inside [0,8] or not: the guard
    [extra_hysteresis >= 0 or extra_hysteresis <= 8] holds of every int. *)
Theorem cmd_stores_any_extra_hysteresis
    (gcmd : AutotuneTMC.GCodeCommand) (self : AutotuneTMC.t) (v : Z) :
  AutotuneTMC.gcmd_get_int gcmd "EXTRA_HYSTERESIS" = Some v ->
  exists self' log,
    AutotuneTMC.cmd_AUTOTUNE_TMC gcmd self = Ok (tt, self', log) /\
    AutotuneTMC.extra_hysteresis self' = v.
Proof.
  intros Hv. run_cmd. rewrite Hv.
  assert (Hguard : (v >=? 0) || (v <=? 8) = true).
  { apply orb_true_iff. destruct (Z.geb_spec v 0); [now left | right].
    apply Z.leb_le. lia. }
  rewrite Hguard.
  destruct self as [n mn g a f mo eh tb tf vo pf dn tob tch]; cbn.
  destruct (AutotuneTMC.TuningGoal_of _) as [g' | e];
    [destruct g' | destruct g]; destruct a;
    do 2 eexists; (split; [reflexivity | reflexivity]).
Qed.

(** EXTRA_HYSTERESIS=9 on the sample axis, whose stored value is 0. *)
Lemma cmd_stores_any_extra_hysteresis_witness :
  exists self' log,
    AutotuneTMC.cmd_AUTOTUNE_TMC
      {| AutotuneTMC.str_params := [];
         AutotuneTMC.int_params := [("EXTRA_HYSTERESIS", 9)] |}
      sample_axis = Ok (tt, self', log) /\
    AutotuneTMC.extra_hysteresis self' = 9.
Proof.
  exact (cmd_stores_any_extra_hysteresis
           {| AutotuneTMC.str_params := [];
              AutotuneTMC.int_params := [("EXTRA_HYSTERESIS", 9)] |}
           sample_axis 9 eq_refl).
Defined.

(** An unrecognised TUNING_GOAL string leaves a goal other than AUTO as it
    was. *)
Lemma cmd_unrecognized_goal_keeps_goal
    (gcmd : AutotuneTMC.GCodeCommand) (self : AutotuneTMC.t) (e : exn) :
  AutotuneTMC.TuningGoal_of
    (lower (AutotuneTMC.gcmd_get gcmd "TUNING_GOAL" AutotuneTMC.TUNING_GOAL))
    = Raise e ->
  AutotuneTMC.tuning_goal self <> AutotuneTMC.AUTO ->
  exists self' log,
    AutotuneTMC.cmd_AUTOTUNE_TMC gcmd self = Ok (tt, self', log) /\
    AutotuneTMC.tuning_goal self' = AutotuneTMC.tuning_goal self.
Proof.
  intros Hbad Hgoal. unfold AutotuneTMC.cmd_AUTOTUNE_TMC. rewrite Hbad.
  destruct self as [n mn g a f mo eh tb tf vo pf dn tob tch]; cbn in Hgoal |- *.
  destruct (AutotuneTMC.gcmd_get_int gcmd "EXTRA_HYSTERESIS") as [x |];
    [destruct ((x >=? 0) || (x <=? 8)) |];
    destruct g; try congruence;
    do 2 eexists; (split; [reflexivity | reflexivity]).
Qed.

(** ** Construction of the motor model *)

(** The sample section builds the sample motor; its back-EMF constant is
    0.5 / (2 * 1.5), about 0.16667. *)
Example init_sample :
  MotorConstants.__init__ sample_section = Ok sample_motor /\
  (0.16666 <? MotorConstants.cbemf sample_motor)%float = true /\
  (MotorConstants.cbemf sample_motor <? 0.16667)%float = true.
Proof.
  repeat split; reflexivity.
Qed.

Lemma getfloat_raises (c : Config.section) (name : string)
    (default minval maxval : option float) (e : exn) :
  Config.getfloat c name default minval maxval = Raise e ->
  e = ConfigError name.
Proof.
  unfold Config.getfloat.
  destruct (Config.lookup name (Config.floats c)) as [v |].
  - destruct minval as [lo |]; [destruct (v <? lo)%float |];
      (destruct maxval as [hi |]; [destruct (hi <? v)%float |]);
      congruence.
  - destruct default; congruence.
Qed.

Lemma getint_raises (c : Config.section) (name : string)
    (default minval maxval : option Z) (e : exn) :
  Config.getint c name default minval maxval = Raise e ->
  e = ConfigError name.
Proof.
  unfold Config.getint.
  destruct (Config.lookup name (Config.ints c)) as [v |].
  - destruct minval as [lo |]; [destruct (v <? lo) |];
      (destruct maxval as [hi |]; [destruct (hi <? v) |]);
      congruence.
  - destruct default; congruence.
Qed.

(** A rated current that compares below zero is refused by the bounded
    read, before the division. *)
Lemma init_rejects_negative_current (c : Config.section) (v : float) :
  Config.lookup "max_current" (Config.floats c) = Some v ->
  (v <? 0)%float = true ->
  exists what, MotorConstants.__init__ c = Raise (ConfigError what).
Proof.
  intros Hv Hneg. unfold MotorConstants.__init__, bind.
  destruct (Config.getfloat c "resistance" _ _ _) eqn:E1;
    [| apply getfloat_raises in E1; subst; eexists; reflexivity].
  destruct (Config.getfloat c "inductance" _ _ _) eqn:E2;
    [| apply getfloat_raises in E2; subst; eexists; reflexivity].
  destruct (Config.getfloat c "holding_torque" _ _ _) eqn:E3;
    [| apply getfloat_raises in E3; subst; eexists; reflexivity].
  destruct (Config.getint c "steps_per_revolution" _ _ _) eqn:E4;
    [| apply getint_raises in E4; subst; eexists; reflexivity].
  unfold Config.getfloat at 1. rewrite Hv, Hneg. eexists; reflexivity.
Qed.

(** A float that compares equal to zero is one of the two zeros. *)
Lemma eqb_zero_cases (v : float) :
  (v =? 0)%float = true -> v = 0%float \/ v = (-0)%float.
Proof.
  rewrite eqb_spec. change (Prim2SF 0) with (S754_zero false).
  intros Heq. rewrite <- (SF2Prim_Prim2SF v).
  destruct (Prim2SF v) as [s | s | | s m e]; try destruct s;
    try discriminate Heq; [right | left]; reflexivity.
Qed.

(** Whenever the other four options are accepted, a rated current equal to
    zero, of either sign, is accepted too and the division raises. *)
Lemma init_zero_current (c : Config.section) (r l tq v : float) (s : Z) :
  Config.getfloat c "resistance" None (Some 0%float) None = Ok r ->
  Config.getfloat c "inductance" None (Some 0%float) None = Ok l ->
  Config.getfloat c "holding_torque" None (Some 0%float) None = Ok tq ->
  Config.getint c "steps_per_revolution" None (Some 0) None = Ok s ->
  Config.lookup "max_current" (Config.floats c) = Some v ->
  (v =? 0)%float = true ->
  MotorConstants.__init__ c = Raise ZeroDivisionError.
Proof.
  intros Hr Hl Htq Hs Hv Hzero.
  unfold MotorConstants.__init__. rewrite Hr, Hl, Htq, Hs. cbn [bind].
  unfold Config.getfloat at 1. rewrite Hv.
  destruct (eqb_zero_cases v Hzero) as [-> | ->]; reflexivity.
Qed.

(** C2 (as the code has it): a rated current of exactly zero passes the
    bounded read [getfloat('max_current', minval=0.)], and the division
    [T / (2.0 * I)] then raises ZeroDivisionError. *)
Theorem init_zero_current_divides_by_zero :
  Config.getfloat zero_current_section "max_current" None (Some 0%float) None
    = Ok 0%float /\
  MotorConstants.__init__ zero_current_section = Raise ZeroDivisionError.
Proof.
  split; reflexivity.
Qed.

(** ** The derived-value formulas *)

(** C3 (as the code has it): [maxpwmrps] calls [pwmgrad(fclk, steps)], so
    the gradient is taken at the default 24 V whatever [volts] is.  At 12 V
    the sample motor gets 180 / (pi * 16) where the formula with the
    gradient at 12 V gives 180 / (pi * 32). *)
Theorem maxpwmrps_gradient_ignores_volts :
  MotorConstants.pwmgrad sample_motor 12.5e6 200 24.0 = Ok 16 /\
  MotorConstants.pwmgrad sample_motor 12.5e6 200 12.0 = Ok 32 /\
  MotorConstants.maxpwmrps sample_motor 12.5e6 200 12.0 0.0
    = Ok 3.5809862195676452%float /\
  maxpwmrps_formula sample_motor 12.5e6 200 12.0 0.0
    = Ok 1.7904931097838226%float /\
  MotorConstants.maxpwmrps sample_motor 12.5e6 200 12.0 0.0
    <> maxpwmrps_formula sample_motor 12.5e6 200 12.0 0.0.
Proof.
  repeat split; try reflexivity.
  result_neq.
Qed.

(** C9 (as the code has it): the engine's [pwmgrad] returns on no input.
    It reads [self.S] (when [steps] is 0) and [self.cbemf], names that are
    not among the attributes of an [AutotuneTMC] object, and raises
    AttributeError on the first of them it reaches, whatever the object
    and the arguments.  The motor model's [pwmgrad] is the formula
    [ceil(cbemf * 2 * pi * fclk * c / (volts * 256 * steps))] at c = 1.46
    and returns 16 on the sample motor at 12.5 MHz, 200 steps and 24 V,
    where the formula at the engine's c = 1.3 gives 14. *)
Theorem engine_pwmgrad_raises_attribute_error :
  (forall (self : AutotuneTMC.t) (fclk : float) (steps : Z) (volts : float),
      AutotuneTMC.pwmgrad self fclk steps volts
      = Raise (AttributeError (if steps =? 0 then "S" else "cbemf"))) /\
  AutotuneTMC.in_set "S" AutotuneTMC.attributes = false /\
  AutotuneTMC.in_set "cbemf" AutotuneTMC.attributes = false /\
  (forall (self : MotorConstants.t) (fclk : float) (steps : Z) (volts : float),
      MotorConstants.pwmgrad self fclk steps volts
      = pwmgrad_formula 1.46 (MotorConstants.S self)
          (MotorConstants.cbemf self) fclk steps volts) /\
  MotorConstants.pwmgrad sample_motor 12.5e6 200 24.0 = Ok 16 /\
  pwmgrad_formula 1.3 (MotorConstants.S sample_motor)
    (MotorConstants.cbemf sample_motor) 12.5e6 200 24.0 = Ok 14 /\
  AutotuneTMC.pwmgrad sample_axis 12.5e6 200 24.0
    = Raise (AttributeError "cbemf") /\
  AutotuneTMC.pwmgrad sample_axis 12.5e6 0 24.0 = Raise (AttributeError "S").
Proof.
  split.
  { intros self fclk steps volts. unfold AutotuneTMC.pwmgrad.
    destruct (steps =? 0); reflexivity. }
  repeat split; reflexivity.
Qed.

(** ** Hysteresis *)

(** [math.ceil] answers on every finite float. *)
Lemma math_ceil_finite (x : float) :
  is_finite x = true -> exists n, math_ceil x = Ok n.
Proof.
  unfold is_finite, math_ceil, Prim2SF. intros Hfin.
  apply negb_true_iff, orb_false_iff in Hfin. destruct Hfin as [Hnan Hinf].
  rewrite Hnan. destruct (is_zero x); [eexists; reflexivity |].
  rewrite Hinf.
  destruct (Z.frexp x) as [r ex].
  destruct (shr_fexp prec emax _ _ _) as [sh e'].
  destruct (shr_m sh); try (eexists; reflexivity).
  destruct (0 <=? e'); eexists; reflexivity.
Qed.

(** ... and raises on the others. *)
Lemma math_ceil_not_finite (x : float) :
  is_finite x = false ->
  math_ceil x = Raise OverflowError \/ math_ceil x = Raise ValueError.
Proof.
  unfold is_finite. intros Hfin.
  apply negb_false_iff, orb_true_iff in Hfin.
  unfold math_ceil, Prim2SF.
  destruct (is_nan x); [right; reflexivity |].
  destruct Hfin as [Hnan | Hinf]; [discriminate Hnan |].
  destruct (is_zero x) eqn:Hzero.
  - apply is_zero_not_infinity in Hzero. congruence.
  - rewrite Hinf. left. reflexivity.
Qed.

Lemma truediv_positive (a b : float) :
  (0 <? b)%float = true -> truediv a b = Ok (a / b)%float.
Proof.
  intros Hb. unfold truediv. rewrite (positive_nonzero b Hb). reflexivity.
Qed.

(** With [L], [Imax] and [fclk] positive and [tbl], [toff] in range, no
    division in [hysteresis] has a zero divisor: the float handed to
    [math.ceil] is always computed. *)
Lemma hysteresis_operand_defined
    (self : MotorConstants.t) (fclk volts current : float) (tbl toff : Z) :
  (0 <? MotorConstants.L self)%float = true ->
  (0 <? MotorConstants.I self)%float = true ->
  0 <= tbl <= 3 -> 0 <= toff <= 15 ->
  (0 <? fclk)%float = true ->
  exists x,
    MotorConstants.hysteresis_operand self fclk volts current tbl toff = Ok x.
Proof.
  intros HL HI Htbl Htoff Hfclk.
  unfold MotorConstants.hysteresis_operand.
  assert (Hpow : exists p, Py.pow 1.5 tbl = Ok p).
  { assert (Hc : tbl = 0 \/ tbl = 1 \/ tbl = 2 \/ tbl = 3) by lia.
    destruct Hc as [-> | [-> | [-> | ->]]]; eexists; reflexivity. }
  destruct Hpow as [p ->]. cbn [bind].
  rewrite (truediv_positive _ fclk Hfclk). cbn [bind].
  assert (Hconv : exists f, float_of_int toff = Ok f).
  { assert (Hc : toff = 0 \/ toff = 1 \/ toff = 2 \/ toff = 3 \/ toff = 4 \/
                 toff = 5 \/ toff = 6 \/ toff = 7 \/ toff = 8 \/ toff = 9 \/
                 toff = 10 \/ toff = 11 \/ toff = 12 \/ toff = 13 \/
                 toff = 14 \/ toff = 15) by lia.
    repeat (destruct Hc as [-> | Hc]; [eexists; reflexivity |]).
    subst toff. eexists; reflexivity. }
  destruct Hconv as [f ->]. cbn [bind].
  rewrite (truediv_positive _ fclk Hfclk). cbn [bind].
  rewrite !(truediv_positive _ (MotorConstants.L self) HL). cbn [bind].
  assert (Hi : ((if (0.0 <? current)%float then current
                 else (MotorConstants.I self * 0.8)%float) =? 0)%float = false).
  { destruct (0.0 <? current)%float eqn:Hcur.
    - apply positive_nonzero. exact Hcur.
    - apply mul_08_nonzero. exact HI. }
  unfold truediv at 1. rewrite Hi. cbn [bind].
  rewrite (truediv_positive _ 32%float eq_refl). cbn [bind].
  eexists; reflexivity.
Qed.

(** The clamp chain keeps the returned pair inside the register ranges,
    whatever the raw value. *)
Lemma clamp_chain_bounds (raw : Z) :
  let htotal := MotorConstants.htotal_of raw in
  let hstrt := MotorConstants.hstrt_of htotal in
  let hend := MotorConstants.hend_of htotal hstrt in
  0 <= hstrt - 1 <= 7 /\ hend + 3 <= 11 /\ htotal <= 14.
Proof.
  unfold MotorConstants.htotal_of, MotorConstants.hstrt_of,
    MotorConstants.hend_of. cbv zeta. lia.
Qed.

(** Once the operand is known, the raw value is [extra] plus its ceiling
    and the pair follows from the clamp chain. *)
Lemma hysteresis_of_operand
    (self : MotorConstants.t) (extra : Z) (fclk volts current : float)
    (tbl toff : Z) (x : float) (n : Z) :
  MotorConstants.hysteresis_operand self fclk volts current tbl toff = Ok x ->
  math_ceil x = Ok n ->
  MotorConstants.hysteresis_raw self extra fclk volts current tbl toff
    = Ok (extra + n) /\
  exists hstart hend,
    MotorConstants.hysteresis self extra fclk volts current tbl toff
      = Ok (hstart, hend) /\
    0 <= hstart <= 7 /\ hend <= 11.
Proof.
  intros Hop Hn.
  assert (Hraw : MotorConstants.hysteresis_raw self extra fclk volts current
                   tbl toff = Ok (extra + n)).
  { unfold MotorConstants.hysteresis_raw. rewrite Hop. cbn [bind].
    rewrite Hn. reflexivity. }
  split; [exact Hraw |].
  unfold MotorConstants.hysteresis. rewrite Hraw. cbn [bind].
  do 2 eexists. split; [reflexivity |].
  pose proof (clamp_chain_bounds (extra + n)) as Hb. cbv zeta in Hb. lia.
Qed.

(** C7 (as stated) fails on binary64 floats: with a positive inductance of
    1e-310 H and every other input in range, the coil-drop term overflows
    to infinity and [math.ceil] raises OverflowError, so no pair is
    returned. *)
Lemma hysteresis_overflow_counterexample :
  ~ (forall (self : MotorConstants.t) (extra : Z) (fclk volts current : float)
            (tbl toff : Z),
        (0 <? MotorConstants.R self)%float = true ->
        (0 <? MotorConstants.L self)%float = true ->
        (0 <? MotorConstants.I self)%float = true ->
        0 <= extra <= 8 -> 0 <= tbl <= 3 -> 0 <= toff <= 15 ->
        (0 <? fclk)%float = true -> (0 <? volts)%float = true ->
        (0 <=? current)%float = true ->
        exists hstart hend,
          MotorConstants.hysteresis self extra fclk volts current tbl toff
            = Ok (hstart, hend) /\
          0 <= hstart <= 7 /\ hend <= 11).
Proof.
  intros Hclaim.
  destruct (Hclaim tiny_inductance_motor 0 12.5e6%float 24.0%float 0.0%float
              1 3) as [hs [he [Hret _]]];
    try reflexivity; try lia.
  vm_compute in Hret. discriminate Hret.
Qed.

(** C7 (amended): for every motor with R, L and Imax positive, every extra
    in [0,8], tbl in [0,3], toff in [0,15], fclk and volts positive and
    current not negative, the float handed to [math.ceil] is computed
    without a division fault.  When it is not finite, [hysteresis] raises
    from [math.ceil]; when it is finite, with ceiling [n], the raw value
    for each [extra] is [extra + n], so strictly increasing in [extra],
    htotal is the raw value capped at 14, and [hysteresis] returns a pair
    (hstart, hend) with hstart in [0,7] and hend at most 11. *)
Theorem hysteresis_on_valid_inputs
    (self : MotorConstants.t) (extra : Z) (fclk volts current : float)
    (tbl toff : Z) :
  (0 <? MotorConstants.R self)%float = true ->
  (0 <? MotorConstants.L self)%float = true ->
  (0 <? MotorConstants.I self)%float = true ->
  0 <= extra <= 8 -> 0 <= tbl <= 3 -> 0 <= toff <= 15 ->
  (0 <? fclk)%float = true -> (0 <? volts)%float = true ->
  (0 <=? current)%float = true ->
  exists x,
    MotorConstants.hysteresis_operand self fclk volts current tbl toff = Ok x /\
    (is_finite x = false ->
     MotorConstants.hysteresis self extra fclk volts current tbl toff
       = Raise OverflowError \/
     MotorConstants.hysteresis self extra fclk volts current tbl toff
       = Raise ValueError) /\
    (is_finite x = true ->
     exists n,
       math_ceil x = Ok n /\
       (forall e, MotorConstants.hysteresis_raw self e fclk volts current
                    tbl toff = Ok (e + n)) /\
       (forall e1 e2, e1 < e2 -> e1 + n < e2 + n) /\
       MotorConstants.htotal_of (extra + n) = Z.min (extra + n) 14 /\
       (14 <= extra + n -> MotorConstants.htotal_of (extra + n) = 14) /\
       exists hstart hend,
         MotorConstants.hysteresis self extra fclk volts current tbl toff
           = Ok (hstart, hend) /\
         0 <= hstart <= 7 /\ hend <= 11).
Proof.
  intros _ HL HI _ Htbl Htoff Hfclk _ _.
  destruct (hysteresis_operand_defined self fclk volts current tbl toff
              HL HI Htbl Htoff Hfclk) as [x Hop].
  exists x. split; [exact Hop |]. split.
  - intros Hnf.
    unfold MotorConstants.hysteresis, MotorConstants.hysteresis_raw.
    rewrite Hop. cbn [bind].
    destruct (math_ceil_not_finite x Hnf) as [-> | ->]; [left | right];
      reflexivity.
  - intros Hfin.
    destruct (math_ceil_finite x Hfin) as [n Hn].
    exists n. split; [exact Hn |].
    split; [intros e;
            apply (hysteresis_of_operand self e fclk volts current tbl toff
                     x n Hop Hn) |].
    split; [intros; lia |].
    split; [reflexivity |].
    split; [unfold MotorConstants.htotal_of; lia |].
    apply (hysteresis_of_operand self extra fclk volts current tbl toff
             x n Hop Hn).
Qed.

(** The sample motor at 12.5 MHz, 24 V, tbl = 1, toff = 3, extra = 8. *)
Lemma hysteresis_on_valid_inputs_witness :
  exists x,
    MotorConstants.hysteresis_operand sample_motor 12.5e6 24.0 0.0 1 3 = Ok x /\
    (is_finite x = false ->
     MotorConstants.hysteresis sample_motor 8 12.5e6 24.0 0.0 1 3
       = Raise OverflowError \/
     MotorConstants.hysteresis sample_motor 8 12.5e6 24.0 0.0 1 3
       = Raise ValueError) /\
    (is_finite x = true ->
     exists n,
       math_ceil x = Ok n /\
       (forall e, MotorConstants.hysteresis_raw sample_motor e 12.5e6 24.0 0.0
                    1 3 = Ok (e + n)) /\
       (forall e1 e2, e1 < e2 -> e1 + n < e2 + n) /\
       MotorConstants.htotal_of (8 + n) = Z.min (8 + n) 14 /\
       (14 <= 8 + n -> MotorConstants.htotal_of (8 + n) = 14) /\
       exists hstart hend,
         MotorConstants.hysteresis sample_motor 8 12.5e6 24.0 0.0 1 3
           = Ok (hstart, hend) /\
         0 <= hstart <= 7 /\ hend <= 11).
Proof.
  apply (hysteresis_on_valid_inputs sample_motor 8 12.5e6 24.0 0.0 1 3);
    try reflexivity; lia.
Defined.

(** On the sample motor the operand is 4.56..., its ceiling 5; the pair
    runs from (4, 3) at extra = 0 to (7, 8) at extra = 8, where the raw
    value is 13. *)
Example hysteresis_sample :
  MotorConstants.hysteresis_operand sample_motor 12.5e6 24.0 0.0 1 3
    = Ok 4.562719999999997%float /\
  MotorConstants.hysteresis sample_motor 0 12.5e6 24.0 0.0 1 3 = Ok (4, 3) /\
  MotorConstants.hysteresis sample_motor 8 12.5e6 24.0 0.0 1 3 = Ok (7, 8) /\
  MotorConstants.hysteresis_raw sample_motor 8 12.5e6 24.0 0.0 1 3 = Ok 13.
Proof.
  repeat split; reflexivity.
Qed.

(** ** Further properties of the command handler *)

Ltac split_cmd gcmd :=
  unfold AutotuneTMC.cmd_AUTOTUNE_TMC in *;
  destruct (AutotuneTMC.TuningGoal_of
              (lower (AutotuneTMC.gcmd_get gcmd "TUNING_GOAL"
                        AutotuneTMC.TUNING_GOAL))) as [[] | ?];
  destruct (AutotuneTMC.gcmd_get_int gcmd "EXTRA_HYSTERESIS") as [?x |];
  [destruct ((x >=? 0) || (x <=? 8)) | | destruct ((x >=? 0) || (x <=? 8)) |
   | destruct ((x >=? 0) || (x <=? 8)) | | destruct ((x >=? 0) || (x <=? 8)) |
   | destruct ((x >=? 0) || (x <=? 8)) | ].

(** X1: the command assigns to no attribute other than [tuning_goal] and
    [extra_hysteresis], and the fields it applies are exactly those the
    tuning procedure applies in the state the command leaves. *)
Theorem cmd_frame_and_trace
    (gcmd : AutotuneTMC.GCodeCommand) (self : AutotuneTMC.t) :
  exists self' log,
    AutotuneTMC.cmd_AUTOTUNE_TMC gcmd self = Ok (tt, self', log) /\
    AutotuneTMC.tune_driver self' = Ok (tt, self', log) /\
    self' = AutotuneTMC.with_extra_hysteresis
              (AutotuneTMC.extra_hysteresis self')
              (AutotuneTMC.with_tuning_goal
                 (AutotuneTMC.tuning_goal self') self).
Proof.
  split_cmd gcmd;
    destruct self as [n mn g a f mo eh tb tf vo pf dn tob tch];
    destruct g; destruct a;
    do 2 eexists; (split; [reflexivity | split; reflexivity]).
Qed.

(** X2: the command is idempotent: run again on the state it left, the
    same command leaves that state as it is and applies the same fields. *)
Theorem cmd_idempotent
    (gcmd : AutotuneTMC.GCodeCommand) (self self' : AutotuneTMC.t)
    (log : list AutotuneTMC.call) :
  AutotuneTMC.cmd_AUTOTUNE_TMC gcmd self = Ok (tt, self', log) ->
  AutotuneTMC.cmd_AUTOTUNE_TMC gcmd self' = Ok (tt, self', log).
Proof.
  intros Hrun. revert Hrun.
  split_cmd gcmd;
    destruct self as [n mn g a f mo eh tb tf vo pf dn tob tch];
    destruct g; destruct a; cbn;
    intros Hrun; injection Hrun as <- <-; reflexivity.
Qed.

(** EXTRA_HYSTERESIS=3 with TUNING_GOAL=performance on the sample axis. *)
Lemma cmd_idempotent_witness :
  let gcmd := {| AutotuneTMC.str_params := [("TUNING_GOAL", "performance")];
                 AutotuneTMC.int_params := [("EXTRA_HYSTERESIS", 3)] |} in
  let self' := AutotuneTMC.with_extra_hysteresis 3
                 (AutotuneTMC.with_tuning_goal AutotuneTMC.PERFORMANCE
                    sample_axis) in
  AutotuneTMC.cmd_AUTOTUNE_TMC gcmd self' =
    Ok (tt, self', [("en_pwm_mode", AutotuneTMC.VBool false);
                    ("en_spreadcycle", AutotuneTMC.VBool true);
                    ("pwm_freq", AutotuneTMC.VFloat 55e3);
                    ("semax", AutotuneTMC.VInt 3);
                    ("semin", AutotuneTMC.VInt 1);
                    ("seup", AutotuneTMC.VInt 4);
                    ("sedn", AutotuneTMC.VInt 2)]).
Proof.
  exact (cmd_idempotent
           {| AutotuneTMC.str_params := [("TUNING_GOAL", "performance")];
              AutotuneTMC.int_params := [("EXTRA_HYSTERESIS", 3)] |}
           sample_axis _ _ eq_refl).
Defined.

(** X3: a TUNING_GOAL the enum recognizes is stored as given, AUTO through
    the resolution cached in [auto_silent], whatever goal was stored
    before; and a command without EXTRA_HYSTERESIS keeps the stored extra
    hysteresis. *)
Theorem cmd_stores_recognized_goal
    (gcmd : AutotuneTMC.GCodeCommand) (self : AutotuneTMC.t)
    (tg : AutotuneTMC.TuningGoal) :
  AutotuneTMC.TuningGoal_of
    (lower (AutotuneTMC.gcmd_get gcmd "TUNING_GOAL" AutotuneTMC.TUNING_GOAL))
    = Ok tg ->
  exists self' log,
    AutotuneTMC.cmd_AUTOTUNE_TMC gcmd self = Ok (tt, self', log) /\
    AutotuneTMC.tuning_goal self' =
      match tg with
      | AutotuneTMC.AUTO =>
          if AutotuneTMC.auto_silent self
          then AutotuneTMC.SILENT else AutotuneTMC.PERFORMANCE
      | g => g
      end /\
    (AutotuneTMC.gcmd_get_int gcmd "EXTRA_HYSTERESIS" = None ->
     AutotuneTMC.extra_hysteresis self' = AutotuneTMC.extra_hysteresis self).
Proof.
  intros Hgoal. unfold AutotuneTMC.cmd_AUTOTUNE_TMC. rewrite Hgoal.
  destruct (AutotuneTMC.gcmd_get_int gcmd "EXTRA_HYSTERESIS") as [x |];
    [destruct ((x >=? 0) || (x <=? 8)) |];
    destruct self as [n mn g a f mo eh tb tf vo pf dn tob tch];
    destruct tg; destruct a;
    do 2 eexists;
    (split; [reflexivity | split; [reflexivity | try discriminate; reflexivity]]).
Qed.

(** TUNING_GOAL=AutoSwitch on the sample axis. *)
Lemma cmd_stores_recognized_goal_witness :
  exists self' log,
    AutotuneTMC.cmd_AUTOTUNE_TMC
      {| AutotuneTMC.str_params := [("TUNING_GOAL", "AutoSwitch")];
         AutotuneTMC.int_params := [] |} sample_axis = Ok (tt, self', log) /\
    AutotuneTMC.tuning_goal self' = AutotuneTMC.AUTOSWITCH /\
    (@None Z = None ->
     AutotuneTMC.extra_hysteresis self' = 0).
Proof.
  exact (cmd_stores_recognized_goal
           {| AutotuneTMC.str_params := [("TUNING_GOAL", "AutoSwitch")];
              AutotuneTMC.int_params := [] |}
           sample_axis AutotuneTMC.AUTOSWITCH eq_refl).
Defined.

Lemma lower_ascii_idempotent (c : ascii) :
  lower_ascii (lower_ascii c) = lower_ascii c.
Proof.
  destruct c as [[] [] [] [] [] [] [] []]; reflexivity.
Qed.

Lemma lower_idempotent (s : string) : lower (lower s) = lower s.
Proof.
  induction s as [| c r IH]; [reflexivity |].
  cbn [lower]. rewrite lower_ascii_idempotent, IH. reflexivity.
Qed.

(** X4: the TUNING_GOAL parameter is read without regard to letter case:
    a command behaves exactly as the same command with the parameter in
    lower case. *)
Theorem cmd_goal_case_insensitive
    (gcmd : AutotuneTMC.GCodeCommand) (goal : string) (self : AutotuneTMC.t) :
  AutotuneTMC.cmd_AUTOTUNE_TMC (with_goal_param goal gcmd) self =
  AutotuneTMC.cmd_AUTOTUNE_TMC (with_goal_param (lower goal) gcmd) self.
Proof.
  unfold AutotuneTMC.cmd_AUTOTUNE_TMC, AutotuneTMC.gcmd_get,
    AutotuneTMC.gcmd_get_int, with_goal_param.
  cbn [AutotuneTMC.str_params AutotuneTMC.int_params Config.lookup String.eqb
       Ascii.eqb Bool.eqb].
  rewrite lower_idempotent. reflexivity.
Qed.

(** What one command keeps and what it establishes. *)
Lemma cmd_invariant (gcmd : AutotuneTMC.GCodeCommand) (self : AutotuneTMC.t) :
  exists self' log,
    AutotuneTMC.cmd_AUTOTUNE_TMC gcmd self = Ok (tt, self', log) /\
    AutotuneTMC.tuning_goal self' <> AutotuneTMC.AUTO /\
    AutotuneTMC.auto_silent self' = AutotuneTMC.auto_silent self /\
    AutotuneTMC.name self' = AutotuneTMC.name self /\
    AutotuneTMC.pwm_freq_target self' = AutotuneTMC.pwm_freq_target self.
Proof.
  split_cmd gcmd;
    destruct self as [n mn g a f mo eh tb tf vo pf dn tob tch];
    destruct g; destruct a;
    do 2 eexists; (split; [reflexivity |]); cbn;
    repeat split; discriminate.
Qed.

(** X5: however many commands are run and whatever goal strings and
    integers they carry, the cached resolution [auto_silent], the axis name
    and the target frequency stay as they were, and as soon as one command
    has run the stored goal is not AUTO. *)
Theorem run_commands_invariant
    (cmds : list AutotuneTMC.GCodeCommand) (self : AutotuneTMC.t) :
  exists self' log,
    run_commands cmds self = Ok (tt, self', log) /\
    AutotuneTMC.auto_silent self' = AutotuneTMC.auto_silent self /\
    AutotuneTMC.name self' = AutotuneTMC.name self /\
    AutotuneTMC.pwm_freq_target self' = AutotuneTMC.pwm_freq_target self /\
    (cmds <> [] \/ AutotuneTMC.tuning_goal self <> AutotuneTMC.AUTO ->
     AutotuneTMC.tuning_goal self' <> AutotuneTMC.AUTO).
Proof.
  revert self. induction cmds as [| gcmd rest IH]; intros self.
  - exists self, []. repeat split. intros [Hne | Hgoal]; congruence.
  - destruct (cmd_invariant gcmd self)
      as [s1 [log1 [Hrun [Hgoal [Hauto [Hname Hpwm]]]]]].
    destruct (IH s1) as [s2 [log2 [Hrest [Hauto2 [Hname2 [Hpwm2 Hgoal2]]]]]].
    exists s2, (log1 ++ log2).
    split.
    { cbn [run_commands]. unfold AutotuneTMC.mbind.
      rewrite Hrun, Hrest. reflexivity. }
    repeat split; try congruence.
    intros _. apply Hgoal2. right. exact Hgoal.
Qed.

(** ** The lifecycle handlers *)

(** X6: [handle_ready] always leaves a clock frequency: the one the driver
    answers when it answers one, otherwise the one already stored, and
    12.5 MHz when there is neither; it changes no other attribute, and the
    fields it applies are those of the tuning procedure. *)
Theorem handle_ready_sets_fclk
    (tmc_frequency : option (option float)) (self : AutotuneTMC.t) :
  exists self' log,
    AutotuneTMC.handle_ready tmc_frequency self = Ok (tt, self', log) /\
    AutotuneTMC.fclk self' =
      match tmc_frequency with
      | Some (Some f) => Some f
      | Some None => Some 12.5e6%float
      | None =>
          match AutotuneTMC.fclk self with
          | Some f => Some f
          | None => Some 12.5e6%float
          end
      end /\
    AutotuneTMC.fclk self' <> None /\
    self' = AutotuneTMC.with_fclk (AutotuneTMC.fclk self') self /\
    AutotuneTMC.tune_driver self' = Ok (tt, self', log).
Proof.
  unfold AutotuneTMC.handle_ready.
  destruct self as [n mn g a f mo eh tb tf vo pf dn tob tch].
  destruct tmc_frequency as [[v |] |]; [| | destruct f as [v |]];
    destruct g;
    do 2 eexists;
    (split; [reflexivity |]); cbn;
    repeat split; discriminate.
Qed.

(** X7: [handle_connect] fails in exactly three cases, taken in this
    order: no object is kept under the driver name (a configuration error
    naming it), reading [get_status.__self__] on the driver object raises
    (that exception, uncaught), and no motor definition is kept under the
    motor name (a configuration error naming it).  Otherwise it applies no
    field, stores the driver object, its command helper and the motor,
    never leaves the goal AUTO, and touches [auto_silent] only when the
    goal was AUTO, in which case the goal it leaves is SILENT exactly when
    [auto_silent] is set. *)
Theorem handle_connect_outcome
    (printer : AutotuneTMC.Printer) (self : AutotuneTMC.t) :
  match AutotuneTMC.drivers printer (AutotuneTMC.driver_name self) with
  | None =>
      AutotuneTMC.handle_connect printer self
        = Raise (ConfigError (AutotuneTMC.driver_name self))
  | Some driver =>
      match AutotuneTMC.get_status_self printer driver with
      | Raise e => AutotuneTMC.handle_connect printer self = Raise e
      | Ok helper =>
          match AutotuneTMC.motors printer (AutotuneTMC.motor_name self) with
          | None =>
              AutotuneTMC.handle_connect printer self
                = Raise (ConfigError (AutotuneTMC.motor_name self))
          | Some motor =>
              let connected :=
                AutotuneTMC.with_motor_object (Some motor)
                  (AutotuneTMC.with_tmc_cmdhelper (Some helper)
                     (AutotuneTMC.with_tmc_object (Some driver) self)) in
              exists self',
                AutotuneTMC.handle_connect printer self = Ok (tt, self', []) /\
                AutotuneTMC.tmc_object self' = Some driver /\
                AutotuneTMC.tmc_cmdhelper self' = Some helper /\
                AutotuneTMC.motor_object self' = Some motor /\
                AutotuneTMC.tuning_goal self' <> AutotuneTMC.AUTO /\
                (AutotuneTMC.tuning_goal self <> AutotuneTMC.AUTO ->
                 self' = connected) /\
                (AutotuneTMC.tuning_goal self = AutotuneTMC.AUTO ->
                 (AutotuneTMC.tuning_goal self' = AutotuneTMC.SILENT <->
                  AutotuneTMC.auto_silent self' = true) /\
                 self' = AutotuneTMC.with_tuning_goal
                           (AutotuneTMC.tuning_goal self')
                           (AutotuneTMC.with_auto_silent
                              (AutotuneTMC.auto_silent self') connected))
          end
      end
  end.
Proof.
  destruct (AutotuneTMC.drivers printer (AutotuneTMC.driver_name self))
    as [driver |] eqn:Hdriver.
  2: { unfold AutotuneTMC.handle_connect, AutotuneTMC.lookup_object,
         AutotuneTMC.call_out.
       run_method. rewrite Hdriver. reflexivity. }
  destruct (AutotuneTMC.get_status_self printer driver)
    as [helper | e] eqn:Hhelper.
  2: { unfold AutotuneTMC.handle_connect, AutotuneTMC.lookup_object,
         AutotuneTMC.call_out.
       run_method. rewrite Hdriver, Hhelper. reflexivity. }
  rewrite (handle_connect_driver_found printer self driver helper
             Hdriver Hhelper).
  destruct (AutotuneTMC.motors printer (AutotuneTMC.motor_name self))
    as [motor |] eqn:Hmotor; [| reflexivity].
  cbv zeta.
  destruct (AutotuneTMC.tuning_goal self) eqn:Hgoal.
  1: match goal with
     | |- context [negb ?x && ?y] => destruct (negb x && y)
     end.
  all: destruct self as [n mn g a f mo eh tb tf vo pf dn tob tch];
    cbn in Hgoal; subst g; cbn;
    eexists; (split; [reflexivity |]); cbn;
    repeat split; try discriminate; congruence.
Qed.

(** X8: whatever the state, the tuning procedure either applies nothing
    (goal AUTO or AUTOSWITCH) or applies exactly seven fields, always in
    the order en_pwm_mode, en_spreadcycle, pwm_freq, semax, semin, seup,
    sedn; the two chopper flags are then opposite, stealthChop being on
    exactly for SILENT, and the CoolStep thresholds are 3, 1, 4, 2
    whatever the configuration holds. *)
Theorem tune_driver_trace_shape (self : AutotuneTMC.t) :
  exists log,
    AutotuneTMC.tune_driver self = Ok (tt, self, log) /\
    match AutotuneTMC.tuning_goal self with
    | AutotuneTMC.AUTO | AutotuneTMC.AUTOSWITCH => log = []
    | g =>
        fields_of log = ["en_pwm_mode"; "en_spreadcycle"; "pwm_freq";
                         "semax"; "semin"; "seup"; "sedn"] /\
        applied "en_pwm_mode" log =
          Some (AutotuneTMC.VBool (AutotuneTMC.goal_eqb g AutotuneTMC.SILENT)) /\
        applied "en_spreadcycle" log =
          Some (AutotuneTMC.VBool
                  (negb (AutotuneTMC.goal_eqb g AutotuneTMC.SILENT))) /\
        applied "semax" log = Some (AutotuneTMC.VInt 3) /\
        applied "semin" log = Some (AutotuneTMC.VInt 1) /\
        applied "seup" log = Some (AutotuneTMC.VInt 4) /\
        applied "sedn" log = Some (AutotuneTMC.VInt 2)
    end.
Proof.
  destruct self as [n mn g a f mo eh tb tf vo pf dn tob tch].
  destruct g; eexists; (split; [reflexivity |]); cbn;
    repeat split; reflexivity.
Qed.

(** ** Signs and zeros in binary64 arithmetic *)

(** A positive mantissa that reaches the smallest subnormal does not round
    to zero. *)
Lemma binary_round_aux_not_zero (sx s : bool) (M : positive) (eM : Z) :
  2 ^ (-1074 - eM) <= Zpos M ->
  binary_round_aux prec emax sx (Zpos M) eM loc_Exact <> S754_zero s.
Proof.
  intros Hbig. unfold binary_round_aux.
  destruct (shr_fexp prec emax (Zpos M) eM loc_Exact) as [mrs1 e1] eqn:E1.
  assert (H1 : 1 <= shr_m mrs1 /\ -1074 <= e1).
  { revert E1. unfold shr_fexp, shr. cbn [Zdigits2 shr_record_of_loc].
    pose proof (digits2_pos_bounds M) as [Hlo _].
    pose proof (fexp_ge_emin (Zpos (digits2_pos M) + eM)) as Hfe.
    destruct (fexp prec emax (Zpos (digits2_pos M) + eM) - eM)
      as [| k | k] eqn:Hn;
      intros Heq; injection Heq as <- <-; cbn [shr_m]; try lia.
    split; [| lia].
    rewrite iter_pos_shr_m by (cbn [shr_m]; lia). cbn [shr_m].
    apply Z.div_le_lower_bound; [apply Z.pow_pos_nonneg; lia |].
    rewrite Z.mul_1_r.
    unfold fexp, SpecFloat.emin, prec, emax in Hn.
    destruct (Z.max_spec (Zpos (digits2_pos M) + eM - 53) (3 - 1024 - 53))
      as [[_ Hmax] | [_ Hmax]]; rewrite Hmax in Hn.
    - replace (Zpos k) with (-1074 - eM) by lia. exact Hbig.
    - apply Z.le_trans with (2 ^ (Zpos (digits2_pos M) - 1)); [| exact Hlo].
      apply Z.pow_le_mono_r; lia. }
  destruct H1 as [Hm1 He1].
  pose proof (round_nearest_even_ge (shr_m mrs1) (loc_of_shr_record mrs1))
    as Hround.
  pose proof (shr_fexp_pos (round_nearest_even (shr_m mrs1)
                              (loc_of_shr_record mrs1)) e1
                ltac:(lia) He1) as Hpos.
  destruct (shr_fexp prec emax _ e1 loc_Exact) as [mrs2 e2].
  cbn [fst] in Hpos.
  destruct (shr_m mrs2) as [| q | q]; try lia.
  destruct (e2 <=? emax - prec); discriminate.
Qed.

(** Doubling a float gives zero only when the float is a zero. *)
Lemma double_zero_iff (x : float) :
  (2.0 * x =? 0)%float = (x =? 0)%float.
Proof.
  rewrite !eqb_spec, mul_spec.
  change (Prim2SF 0) with (S754_zero false).
  change (Prim2SF 2.0) with (S754_finite false 4503599627370496 (-51)).
  pose proof (Prim2SF_valid x) as Hvalid.
  destruct (Prim2SF x) as [s | s | | s m e]; try destruct s; try reflexivity.
  - cbn [valid_binary] in Hvalid. unfold SF64mul, SFmul. cbn [xorb].
    assert (He : -1074 <= e).
    { unfold bounded, canonical_mantissa in Hvalid.
      apply andb_true_iff in Hvalid. destruct Hvalid as [Hc _].
      apply Z.eqb_eq in Hc. rewrite <- Hc. apply fexp_ge_emin. }
    pose proof (fun s => binary_round_aux_not_zero true s
                           (4503599627370496 * m) (-51 + e)) as Hnz.
    destruct (binary_round_aux prec emax true
                (Zpos (4503599627370496 * m)) (-51 + e) loc_Exact)
      as [s | s | | s q k]; try destruct s; try reflexivity;
      exfalso; eapply Hnz; try reflexivity;
      (apply Z.le_trans with (2 ^ 52);
       [apply Z.pow_le_mono_r; lia
       | change (2 ^ 52) with 4503599627370496; lia]).
  - cbn [valid_binary] in Hvalid. unfold SF64mul, SFmul. cbn [xorb].
    assert (He : -1074 <= e).
    { unfold bounded, canonical_mantissa in Hvalid.
      apply andb_true_iff in Hvalid. destruct Hvalid as [Hc _].
      apply Z.eqb_eq in Hc. rewrite <- Hc. apply fexp_ge_emin. }
    pose proof (fun s => binary_round_aux_not_zero false s
                           (4503599627370496 * m) (-51 + e)) as Hnz.
    destruct (binary_round_aux prec emax false
                (Zpos (4503599627370496 * m)) (-51 + e) loc_Exact)
      as [s | s | | s q k]; try destruct s; try reflexivity;
      exfalso; eapply Hnz; try reflexivity;
      (apply Z.le_trans with (2 ^ 52);
       [apply Z.pow_le_mono_r; lia
       | change (2 ^ 52) with 4503599627370496; lia]).
Qed.

(** ** What the motor constructor accepts *)

Lemma getfloat_min_ok (c : Config.section) (name : string) (v : float) :
  Config.getfloat c name None (Some 0%float) None = Ok v <->
  Config.lookup name (Config.floats c) = Some v /\ (v <? 0)%float = false.
Proof.
  unfold Config.getfloat.
  destruct (Config.lookup name (Config.floats c)) as [w |].
  - destruct (w <? 0)%float eqn:Hw; split.
    + discriminate.
    + intros [Heq Hv]. injection Heq as ->. congruence.
    + intros Heq. injection Heq as ->. split; [reflexivity | exact Hw].
    + intros [Heq _]. congruence.
  - split; [discriminate | intros [Heq _]; discriminate Heq].
Qed.

Lemma getint_min_ok (c : Config.section) (name : string) (v : Z) :
  Config.getint c name None (Some 0) None = Ok v <->
  Config.lookup name (Config.ints c) = Some v /\ 0 <= v.
Proof.
  unfold Config.getint.
  destruct (Config.lookup name (Config.ints c)) as [w |].
  - destruct (Z.ltb_spec w 0); split.
    + discriminate.
    + intros [Heq Hv]. injection Heq as ->. lia.
    + intros Heq. injection Heq as ->. split; [reflexivity | assumption].
    + intros [Heq _]. congruence.
  - split; [discriminate | intros [Heq _]; discriminate Heq].
Qed.

(** X9: the constructor builds a motor exactly from the sections that
    carry all five options, none of the four floats comparing below zero,
    the step count not negative, and the rated current not comparing equal
    to zero; the motor then holds the five values as read and
    cbemf = T / (2.0 * I).  Zero resistance, inductance, torque and step
    count are accepted. *)
Theorem init_succeeds_iff (c : Config.section) (m : MotorConstants.t) :
  MotorConstants.__init__ c = Ok m <->
  Config.lookup "resistance" (Config.floats c) = Some (MotorConstants.R m) /\
  (MotorConstants.R m <? 0)%float = false /\
  Config.lookup "inductance" (Config.floats c) = Some (MotorConstants.L m) /\
  (MotorConstants.L m <? 0)%float = false /\
  Config.lookup "holding_torque" (Config.floats c)
    = Some (MotorConstants.T m) /\
  (MotorConstants.T m <? 0)%float = false /\
  Config.lookup "steps_per_revolution" (Config.ints c)
    = Some (MotorConstants.S m) /\
  0 <= MotorConstants.S m /\
  Config.lookup "max_current" (Config.floats c) = Some (MotorConstants.I m) /\
  (MotorConstants.I m <? 0)%float = false /\
  (MotorConstants.I m =? 0)%float = false /\
  MotorConstants.cbemf m
    = (MotorConstants.T m / (2.0 * MotorConstants.I m))%float.
Proof.
  unfold MotorConstants.__init__. split.
  - intros Hinit.
    destruct (Config.getfloat c "resistance" _ _ _) as [r |] eqn:Er;
      [| discriminate Hinit].
    destruct (Config.getfloat c "inductance" _ _ _) as [l |] eqn:El;
      [| discriminate Hinit].
    destruct (Config.getfloat c "holding_torque" _ _ _) as [tq |] eqn:Et;
      [| discriminate Hinit].
    destruct (Config.getint c "steps_per_revolution" _ _ _) as [s |] eqn:Es;
      [| discriminate Hinit].
    destruct (Config.getfloat c "max_current" _ _ _) as [i |] eqn:Ei;
      [| discriminate Hinit].
    cbn [bind] in Hinit. unfold truediv in Hinit.
    destruct (2.0 * i =? 0)%float eqn:Hz; [discriminate Hinit |].
    cbn [bind] in Hinit. injection Hinit as <-. cbn.
    apply getfloat_min_ok in Er, El, Et, Ei. apply getint_min_ok in Es.
    rewrite double_zero_iff in Hz. tauto.
  - intros (Hr & Hr0 & Hl & Hl0 & Ht & Ht0 & Hs & Hs0 & Hi & Hi0 & Hnz & Hcb).
    rewrite (proj2 (getfloat_min_ok c "resistance" _) (conj Hr Hr0)).
    rewrite (proj2 (getfloat_min_ok c "inductance" _) (conj Hl Hl0)).
    rewrite (proj2 (getfloat_min_ok c "holding_torque" _) (conj Ht Ht0)).
    rewrite (proj2 (getint_min_ok c "steps_per_revolution" _) (conj Hs Hs0)).
    rewrite (proj2 (getfloat_min_ok c "max_current" _) (conj Hi Hi0)).
    cbn [bind]. unfold truediv. rewrite double_zero_iff, Hnz. cbn [bind].
    destruct m as [r l tq s i cb]. cbn in Hcb. subst cb. reflexivity.
Qed.

(** ** Signs of the derived values *)

Lemma not_below_zero (x : float) :
  (x <? 0)%float = false -> not_negative (Prim2SF x).
Proof.
  rewrite ltb_spec. change (Prim2SF 0) with (S754_zero false).
  destruct (Prim2SF x) as [s | s | | s m e]; try destruct s;
    cbn; intros H; try exact Logic.I; discriminate H.
Qed.

Lemma above_zero (x : float) :
  (0 <? x)%float = true -> not_negative (Prim2SF x).
Proof.
  intros Hpos.
  destruct (positive_cases x Hpos) as [[m [e Hx]] | Hx]; rewrite Hx;
    exact Logic.I.
Qed.

Lemma binary_round_aux_sign (m e : Z) (l : location) :
  not_negative (binary_round_aux prec emax false m e l).
Proof.
  unfold binary_round_aux.
  destruct (shr_fexp prec emax m e l) as [mrs1 e1].
  destruct (shr_fexp prec emax _ e1 loc_Exact) as [mrs2 e2].
  destruct (shr_m mrs2); [| destruct (e2 <=? emax - prec) |];
    exact Logic.I.
Qed.

Lemma mul_not_negative (x y : float) :
  not_negative (Prim2SF x) -> not_negative (Prim2SF y) ->
  not_negative (Prim2SF (x * y)).
Proof.
  rewrite mul_spec. unfold SF64mul, SFmul.
  destruct (Prim2SF x) as [sx | sx | | sx mx ex]; try destruct sx;
    destruct (Prim2SF y) as [sy | sy | | sy my ey]; try destruct sy;
    cbn [not_negative xorb]; intros Hx Hy;
    try exact Logic.I; try contradiction.
  apply binary_round_aux_sign.
Qed.

Lemma div_not_negative (x y : float) :
  not_negative (Prim2SF x) -> not_negative (Prim2SF y) ->
  (y =? 0)%float = false ->
  not_negative (Prim2SF (x / y)).
Proof.
  rewrite div_spec, eqb_spec. change (Prim2SF 0) with (S754_zero false).
  unfold SF64div, SFdiv.
  destruct (Prim2SF x) as [sx | sx | | sx mx ex]; try destruct sx;
    destruct (Prim2SF y) as [sy | sy | | sy my ey]; try destruct sy;
    cbn [not_negative xorb]; intros Hx Hy Hnz;
    try exact Logic.I; try contradiction; try discriminate Hnz.
  destruct (SFdiv_core_binary prec emax (Zpos mx) ex (Zpos my) ey)
    as [[mz ez] lz].
  apply binary_round_aux_sign.
Qed.

Lemma math_ceil_not_negative (x : float) (n : Z) :
  not_negative (Prim2SF x) -> math_ceil x = Ok n -> 0 <= n.
Proof.
  unfold math_ceil.
  destruct (Prim2SF x) as [s | s | | s m e]; try destruct s;
    cbn [not_negative]; intros Hx Hn;
    try contradiction; try discriminate Hn.
  - injection Hn as <-. lia.
  - injection Hn as <-. lia.
  - destruct (0 <=? e) eqn:He.
    + assert (H0 : 0 <= Zpos m * 2 ^ e)
        by (apply Z.mul_nonneg_nonneg; [lia | apply Z.pow_nonneg; lia]).
      revert Hn H0. generalize (Zpos m * 2 ^ e). intros v Hn H0.
      injection Hn as <-. exact H0.
    + apply Z.leb_gt in He.
      assert (Hd : 0 < 2 ^ (- e)) by (apply Z.pow_pos_nonneg; lia).
      assert (Hq : - Zpos m / 2 ^ (- e) < 0)
        by (apply Z.div_lt_upper_bound; lia).
      revert Hn Hq. generalize (- Zpos m / 2 ^ (- e)). intros v Hn Hq.
      injection Hn as <-. lia.
Qed.

(** [math.ceil] never raises ZeroDivisionError. *)
Lemma math_ceil_no_zero_division (x : float) :
  math_ceil x <> Raise ZeroDivisionError.
Proof.
  unfold math_ceil.
  destruct (Prim2SF x) as [s | s | | s m e]; try discriminate.
  destruct (0 <=? e); discriminate.
Qed.

(** X10: for a motor whose resistance and rated current do not compare
    below zero (as for every motor the constructor builds) and a supply
    voltage that does not either, [pwmofs] raises ZeroDivisionError
    exactly when the voltage is zero, and an offset it returns is never
    negative. *)
Theorem pwmofs_sign
    (self : MotorConstants.t) (volts current : float) :
  (MotorConstants.R self <? 0)%float = false ->
  (MotorConstants.I self <? 0)%float = false ->
  (volts <? 0)%float = false ->
  (MotorConstants.pwmofs self volts current = Raise ZeroDivisionError <->
   (volts =? 0)%float = true) /\
  forall n, MotorConstants.pwmofs self volts current = Ok n -> 0 <= n.
Proof.
  intros HR HI Hv. unfold MotorConstants.pwmofs, truediv.
  destruct (volts =? 0)%float eqn:Hz; cbn [bind].
  - split; [split; reflexivity | discriminate].
  - split.
    + split; [| discriminate].
      intros Hc. exfalso. exact (math_ceil_no_zero_division _ Hc).
    + intros n. apply math_ceil_not_negative.
      apply div_not_negative; [| apply not_below_zero; exact Hv | exact Hz].
      apply mul_not_negative.
      * apply mul_not_negative;
          [exact Logic.I | apply not_below_zero; exact HR].
      * destruct (0.0 <? current)%float eqn:Hcur.
        -- apply above_zero. exact Hcur.
        -- apply mul_not_negative;
             [apply not_below_zero; exact HI | exact Logic.I].
Qed.

(** The sample motor at 24 V and at 0 V. *)
Lemma pwmofs_sign_witness :
  (MotorConstants.pwmofs sample_motor 24.0 0.0 = Raise ZeroDivisionError <->
   (24.0 =? 0)%float = true) /\
  forall n, MotorConstants.pwmofs sample_motor 24.0 0.0 = Ok n -> 0 <= n.
Proof.
  exact (pwmofs_sign sample_motor 24.0 0.0 eq_refl eq_refl eq_refl).
Defined.

(** ** Zero values the constructor lets through *)

(** A float times zero is a zero or NaN. *)
Lemma mul_zero_cases (a : float) :
  (a * 0 =? 0)%float = true \/ Prim2SF (a * 0) = S754_nan.
Proof.
  rewrite eqb_spec, mul_spec.
  change (Prim2SF 0) with (S754_zero false).
  unfold SF64mul, SFmul.
  destruct (Prim2SF a) as [s | s | | s m e]; try destruct s;
    (left; reflexivity) || (right; reflexivity).
Qed.

Lemma div_by_nan (a b : float) :
  Prim2SF b = S754_nan -> math_ceil (a / b) = Raise ValueError.
Proof.
  intros Hb. unfold math_ceil. rewrite div_spec, Hb.
  unfold SF64div, SFdiv. destruct (Prim2SF a); reflexivity.
Qed.

(** X11: on a motor with zero steps per revolution, which the constructor
    accepts, [pwmgrad] with [steps] left at its default never returns a
    gradient: the divisor [volts * 256.0 * steps] is zero or NaN, so the
    call raises ZeroDivisionError or ValueError whatever [fclk] and
    [volts] are. *)
Theorem pwmgrad_zero_steps_fails
    (self : MotorConstants.t) (fclk volts : float) :
  MotorConstants.S self = 0 ->
  MotorConstants.pwmgrad self fclk 0 volts = Raise ZeroDivisionError \/
  MotorConstants.pwmgrad self fclk 0 volts = Raise ValueError.
Proof.
  intros HS. unfold MotorConstants.pwmgrad. rewrite HS.
  change (float_of_int (if 0 =? 0 then 0 else 0)) with (Ok 0%float).
  cbn [bind]. unfold truediv.
  destruct (mul_zero_cases (volts * 256.0)) as [Hz | Hnan].
  - rewrite Hz. left. reflexivity.
  - destruct (volts * 256.0 * 0 =? 0)%float; [left; reflexivity |].
    cbn [bind]. right. apply div_by_nan. exact Hnan.
Qed.

Lemma pwmgrad_zero_steps_fails_witness :
  MotorConstants.pwmgrad zero_steps_motor 12.5e6 0 24.0
    = Raise ZeroDivisionError \/
  MotorConstants.pwmgrad zero_steps_motor 12.5e6 0 24.0 = Raise ValueError.
Proof.
  exact (pwmgrad_zero_steps_fails zero_steps_motor 12.5e6 24.0 eq_refl).
Defined.

(** X12: on a motor with zero inductance, which the constructor accepts,
    [hysteresis] raises ZeroDivisionError for every clock frequency above
    zero, every tbl in [0,3] and toff in [0,15], whatever the voltage, the
    current and the extra hysteresis. *)
Theorem hysteresis_zero_inductance_fails
    (self : MotorConstants.t) (extra : Z) (fclk volts current : float)
    (tbl toff : Z) :
  (MotorConstants.L self =? 0)%float = true ->
  (0 <? fclk)%float = true -> 0 <= tbl <= 3 -> 0 <= toff <= 15 ->
  MotorConstants.hysteresis self extra fclk volts current tbl toff
    = Raise ZeroDivisionError.
Proof.
  intros HL Hfclk Htbl Htoff.
  unfold MotorConstants.hysteresis, MotorConstants.hysteresis_raw,
    MotorConstants.hysteresis_operand.
  assert (Hpow : exists p, Py.pow 1.5 tbl = Ok p).
  { assert (Hc : tbl = 0 \/ tbl = 1 \/ tbl = 2 \/ tbl = 3) by lia.
    destruct Hc as [-> | [-> | [-> | ->]]]; eexists; reflexivity. }
  destruct Hpow as [p ->]. cbn [bind].
  rewrite (truediv_positive _ fclk Hfclk). cbn [bind].
  assert (Hconv : exists f, float_of_int toff = Ok f).
  { assert (Hc : toff = 0 \/ toff = 1 \/ toff = 2 \/ toff = 3 \/ toff = 4 \/
                 toff = 5 \/ toff = 6 \/ toff = 7 \/ toff = 8 \/ toff = 9 \/
                 toff = 10 \/ toff = 11 \/ toff = 12 \/ toff = 13 \/
                 toff = 14 \/ toff = 15) by lia.
    repeat (destruct Hc as [-> | Hc]; [eexists; reflexivity |]).
    subst toff. eexists; reflexivity. }
  destruct Hconv as [f ->]. cbn [bind].
  rewrite (truediv_positive _ fclk Hfclk). cbn [bind].
  unfold truediv at 1. rewrite HL. reflexivity.
Qed.

Lemma hysteresis_zero_inductance_fails_witness :
  MotorConstants.hysteresis zero_inductance_motor 0 12.5e6 24.0 0.0 1 3
    = Raise ZeroDivisionError.
Proof.
  apply (hysteresis_zero_inductance_fails zero_inductance_motor 0 12.5e6
           24.0 0.0 1 3); try reflexivity; lia.
Defined.

(** X13: when the gradient at the default 24 V is zero, as it is for a
    motor without holding torque, [maxpwmrps] cannot return a rate: once
    the offset is computed it raises, ZeroDivisionError on the division by
    [pi * 0] unless the conversion of [255 - offset] to a float has
    raised OverflowError first. *)
Theorem maxpwmrps_zero_gradient_fails
    (self : MotorConstants.t) (fclk : float) (steps : Z)
    (volts current : float) (ofs : Z) :
  MotorConstants.pwmofs self volts current = Ok ofs ->
  MotorConstants.pwmgrad self fclk
    (if steps =? 0 then MotorConstants.S self else steps)
    MotorConstants.default_volts = Ok 0 ->
  MotorConstants.maxpwmrps self fclk steps volts current
    = Raise ZeroDivisionError \/
  MotorConstants.maxpwmrps self fclk steps volts current
    = Raise OverflowError.
Proof.
  intros Hofs Hgrad. unfold MotorConstants.maxpwmrps.
  rewrite Hofs. cbn [bind]. rewrite Hgrad. cbn [bind].
  change (float_of_int 0) with (Ok 0%float). cbn [bind].
  unfold float_of_int.
  destruct (is_infinity _); [right; reflexivity |].
  cbn [bind]. left. reflexivity.
Qed.

(** The sample motor without holding torque, at 12.5 MHz and 24 V. *)
Lemma maxpwmrps_zero_gradient_fails_witness :
  MotorConstants.maxpwmrps zero_torque_motor 12.5e6 200 24.0 0.0
    = Raise ZeroDivisionError \/
  MotorConstants.maxpwmrps zero_torque_motor 12.5e6 200 24.0 0.0
    = Raise OverflowError.
Proof.
  exact (maxpwmrps_zero_gradient_fails zero_torque_motor 12.5e6 200 24.0 0.0
           38 eq_refl eq_refl).
Defined.

(** ** The range of the hysteresis pair *)

(** A float that does not compare below -2 has a ceiling of at least -2. *)
Lemma math_ceil_ge_minus_two (y : float) (n : Z) :
  (y <? -2)%float = false -> math_ceil y = Ok n -> -2 <= n.
Proof.
  rewrite ltb_spec.
  change (Prim2SF (-2)) with (S754_finite true 4503599627370496 (-51)).
  unfold math_ceil. pose proof (Prim2SF_valid y) as Hvalid.
  destruct (Prim2SF y) as [s | s | | s m e]; try discriminate.
  - intros _ Hn. injection Hn as <-. lia.
  - destruct s.
    + (* a negative number: its magnitude is at most 2 *)
      unfold SFltb, SFcompare. rewrite Pos.compare_cont_spec.
      cbn [Pos.switch_Eq]. intros Hcmp.
      cbn [valid_binary] in Hvalid.
      unfold bounded, canonical_mantissa in Hvalid.
      apply andb_true_iff in Hvalid. destruct Hvalid as [Hc _].
      apply Z.eqb_eq in Hc.
      unfold fexp, SpecFloat.emin, prec, emax in Hc.
      pose proof (digits2_pos_bounds m) as [_ Hhi].
      assert (Hm : Zpos m < 2 ^ 53).
      { apply Z.lt_le_trans with (2 ^ Zpos (digits2_pos m)); [exact Hhi |].
        apply Z.pow_le_mono_r; lia. }
      assert (Hneg : (0 <=? e) = false /\ 51 <= - e /\
                     (e = -51 -> Zpos m <= 2 ^ 52)).
      { destruct (Z.compare_spec e (-51)) as [He | He | He];
          [| | discriminate Hcmp].
        - subst e. repeat split; try lia. intros _.
          destruct (Pos.compare_spec m 4503599627370496) as [Hm2 | Hm2 | Hm2];
            cbn [CompOpp] in Hcmp; try discriminate Hcmp.
          + subst m. apply Z.eq_le_incl. reflexivity.
          + apply Pos2Z.pos_lt_pos in Hm2.
            change (2 ^ 52) with 4503599627370496. lia.
        - repeat split; lia. }
      destruct Hneg as [Hle [He Hm52]]. rewrite Hle. intros Hn.
      assert (Hq : Zpos m / 2 ^ (- e) <= 2).
      { apply Z.div_le_upper_bound; [apply Z.pow_pos_nonneg; lia |].
        destruct (Z.eq_dec e (-51)) as [-> | Hne].
        - change (2 ^ (- -51) * 2) with (2 ^ 52). apply Hm52. reflexivity.
        - apply Z.le_trans with (2 ^ 53); [lia |].
          change (2 ^ 53) with (2 ^ 52 * 2).
          apply Z.mul_le_mono_nonneg_r; [lia |].
          apply Z.pow_le_mono_r; lia. }
      revert Hn Hq. generalize (Zpos m / 2 ^ (- e)). intros v Hn Hq.
      injection Hn as <-. lia.
    + (* a positive number *)
      intros _ Hn.
      destruct (0 <=? e) eqn:He.
      * assert (H0 : 0 <= Zpos m * 2 ^ e)
          by (apply Z.mul_nonneg_nonneg; [lia | apply Z.pow_nonneg; lia]).
        revert Hn H0. generalize (Zpos m * 2 ^ e). intros v Hn H0.
        injection Hn as <-. lia.
      * apply Z.leb_gt in He.
        assert (Hd : 0 < 2 ^ (- e)) by (apply Z.pow_pos_nonneg; lia).
        assert (Hq : - Zpos m / 2 ^ (- e) < 0)
          by (apply Z.div_lt_upper_bound; lia).
        revert Hn Hq. generalize (- Zpos m / 2 ^ (- e)). intros v Hn Hq.
        injection Hn as <-. lia.
Qed.

(** The float handed to [math.ceil] is always a [max(_, -2)]. *)
Lemma hysteresis_operand_is_max
    (self : MotorConstants.t) (fclk volts current : float) (tbl toff : Z)
    (x : float) :
  MotorConstants.hysteresis_operand self fclk volts current tbl toff = Ok x ->
  exists y, x = Py.max y (-2)%float.
Proof.
  unfold MotorConstants.hysteresis_operand. intros H.
  repeat match type of H with
         | bind ?c _ = _ => destruct c; cbn [bind] in H; [| discriminate H]
         end.
  eexists. injection H as <-. reflexivity.
Qed.

Lemma math_ceil_max_ge_minus_two (y : float) (n : Z) :
  math_ceil (Py.max y (-2)%float) = Ok n -> -2 <= n.
Proof.
  unfold Py.max. destruct (y <? -2)%float eqn:Hcmp.
  - intros Hn. vm_compute in Hn. injection Hn as <-. lia.
  - apply math_ceil_ge_minus_two. exact Hcmp.
Qed.

(** X14: with an extra hysteresis that is not negative, every pair
    [hysteresis] returns lies in hstart in [0,7] and hend in [0,9]: the raw
    value is at least extra - 2 because the operand is capped below at -2,
    so the clamp of hend at 12 never binds.  The pair encodes the capped
    total, hstart + hend = min(raw, 14) + 2, with hend above 3 only once
    hstart has reached 7 and below 3 only while hstart is 0. *)
Theorem hysteresis_pair_range
    (self : MotorConstants.t) (extra : Z) (fclk volts current : float)
    (tbl toff hstart hend : Z) :
  0 <= extra ->
  MotorConstants.hysteresis self extra fclk volts current tbl toff
    = Ok (hstart, hend) ->
  0 <= hstart <= 7 /\ 0 <= hend <= 9 /\
  (3 < hend -> hstart = 7) /\ (hend < 3 -> hstart = 0) /\
  exists raw,
    MotorConstants.hysteresis_raw self extra fclk volts current tbl toff
      = Ok raw /\
    extra - 2 <= raw /\
    hstart + hend = Z.min raw 14 + 2.
Proof.
  intros Hextra. unfold MotorConstants.hysteresis.
  destruct (MotorConstants.hysteresis_raw self extra fclk volts current
              tbl toff) as [raw |] eqn:Hraw; [| discriminate].
  cbn [bind]. intros Hret.
  assert (Hlow : extra - 2 <= raw).
  { unfold MotorConstants.hysteresis_raw in Hraw.
    destruct (MotorConstants.hysteresis_operand self fclk volts current
                tbl toff) as [x |] eqn:Hop; [| discriminate Hraw].
    cbn [bind] in Hraw.
    destruct (math_ceil x) as [n |] eqn:Hn; [| discriminate Hraw].
    cbn [bind] in Hraw.
    destruct (hysteresis_operand_is_max _ _ _ _ _ _ _ Hop) as [y ->].
    apply math_ceil_max_ge_minus_two in Hn.
    assert (raw = extra + n) by congruence. lia. }
  unfold MotorConstants.htotal_of, MotorConstants.hstrt_of,
    MotorConstants.hend_of in Hret.
  assert (Hs : hstart = Z.max (Z.min (Z.min raw 14) 8) 1 - 1) by congruence.
  assert (He : hend = Z.min (Z.min raw 14 - Z.max (Z.min (Z.min raw 14) 8) 1)
                        12 + 3) by congruence.
  repeat split; try lia.
  exists raw. repeat split; lia.
Qed.

(** The sample motor at extra = 8, which returns (7, 8). *)
Lemma hysteresis_pair_range_witness :
  0 <= 7 <= 7 /\ 0 <= 8 <= 9 /\
  (3 < 8 -> 7 = 7) /\ (8 < 3 -> 7 = 0) /\
  exists raw,
    MotorConstants.hysteresis_raw sample_motor 8 12.5e6 24.0 0.0 1 3
      = Ok raw /\
    8 - 2 <= raw /\
    7 + 8 = Z.min raw 14 + 2.
Proof.
  apply (hysteresis_pair_range sample_motor 8 12.5e6 24.0 0.0 1 3 7 8);
    [lia | reflexivity].
Defined.

(** ** The constructor of the tuning engine *)

(** X15: the constructor never returns an object.  Whatever the host
    answers it raises; and when the motor database loads, the section
    name has a word, the stepper section exists and some driver section
    exists, it raises AttributeError on [_set_driver_velocity_field_new]
    or [_set_driver_velocity_field_old], which the class does not
    define, before any of its own options is read. *)
Theorem init_never_returns (h : AutotuneInit.host) :
  exists e,
    AutotuneInit.__init__ h = AutotuneInit.Fail e /\
    forall motors name driver,
      AutotuneInit.motor_database h = Some motors ->
      AutotuneInit.load_all (AutotuneInit.load_object h) motors = Ok tt ->
      AutotuneInit.last_item (AutotuneInit.split_1 (AutotuneInit.get_name h))
        = AutotuneInit.Done name ->
      AutotuneInit.has_section h name = true ->
      AutotuneInit.find_driver (AutotuneInit.has_section h) name
        AutotuneInit.TRINAMIC_DRIVERS = Some driver ->
      e = AutotuneInit.AttributeError
            (if AutotuneInit.tstep_helper_takes_pstepper h
             then "_set_driver_velocity_field_new"
             else "_set_driver_velocity_field_old").
Proof.
  unfold AutotuneInit.__init__.
  destruct (AutotuneInit.motor_database h) as [motors |] eqn:Hdb;
    [| eexists; split; [reflexivity | intros ? ? ? Hm; discriminate Hm]].
  destruct (AutotuneInit.load_all (AutotuneInit.load_object h) motors)
    as [[] | e1] eqn:Hload;
    [| eexists; split;
       [reflexivity
       | intros ? ? ? Hm Hl; injection Hm as <-; congruence]].
  cbn [AutotuneInit.lift AutotuneInit.obind].
  destruct (AutotuneInit.last_item _) as [name |] eqn:Hname;
    [| eexists; split; [reflexivity | intros ? ? ? _ _ Hn; discriminate Hn]].
  cbn [AutotuneInit.obind].
  destruct (AutotuneInit.has_section h name) eqn:Hsec; cbn [negb];
    [| eexists; split;
       [reflexivity
       | intros ? ? ? _ _ Hn Hs; injection Hn as <-; congruence]].
  destruct (AutotuneInit.find_driver _ name _) as [[dt dn] |] eqn:Hfind;
    [| eexists; split;
       [reflexivity
       | intros ? ? ? _ _ Hn _ Hf; injection Hn as <-; congruence]].
  unfold AutotuneInit.select_velocity_field.
  destruct (AutotuneInit.tstep_helper_takes_pstepper h);
    eexists; (split; [reflexivity | intros; reflexivity]).
Qed.

(** X16: the driver search takes the first driver, in list order, whose
    section exists: it answers (driver, "<driver> <name>") exactly when
    that section exists and no earlier driver of the list has one, and it
    finds nothing exactly when no driver of the list has a section. *)
Theorem find_driver_first_match
    (has_section : string -> bool) (name : string) (drivers : list string) :
  (forall driver driver_name,
      AutotuneInit.find_driver has_section name drivers
        = Some (driver, driver_name) <->
      exists before after,
        drivers = before ++ driver :: after /\
        driver_name = (driver ++ " " ++ name)%string /\
        has_section driver_name = true /\
        forall d, In d before ->
                  has_section (d ++ " " ++ name)%string = false) /\
  (AutotuneInit.find_driver has_section name drivers = None <->
   forall d, In d drivers -> has_section (d ++ " " ++ name)%string = false).
Proof.
  induction drivers as [| d0 rest [IHsome IHnone]]; cbn [AutotuneInit.find_driver].
  - split.
    + intros driver driver_name. split; [discriminate |].
      intros [before [after [Heq _]]].
      destruct before; discriminate Heq.
    + split; [intros _ d [] | reflexivity].
  - destruct (has_section (d0 ++ " " ++ name)%string) eqn:H0; split.
    + intros driver driver_name. split.
      * intros Heq. injection Heq as <- <-.
        exists [], rest. repeat split; [exact H0 | intros d []].
      * intros [before [after [Heq [Hname [Hsec Hbefore]]]]].
        destruct before as [| b before'].
        -- cbn in Heq. injection Heq as <- <-. subst driver_name. reflexivity.
        -- cbn in Heq. injection Heq as <- _.
           rewrite (Hbefore d0 (or_introl eq_refl)) in H0. discriminate H0.
    + split; [discriminate |].
      intros Hall. rewrite (Hall d0 (or_introl eq_refl)) in H0.
      discriminate H0.
    + intros driver driver_name. rewrite IHsome. split.
      * intros [before [after [Heq [Hname [Hsec Hbefore]]]]].
        exists (d0 :: before), after. subst rest. repeat split; try assumption.
        intros d [<- | Hin]; [exact H0 | apply Hbefore; exact Hin].
      * intros [before [after [Heq [Hname [Hsec Hbefore]]]]].
        destruct before as [| b before'].
        -- cbn in Heq. injection Heq as -> _. subst driver_name.
           rewrite Hsec in H0. discriminate H0.
        -- cbn in Heq. injection Heq as <- ->.
           exists before', after. repeat split; try assumption.
           intros d Hin. apply Hbefore. right. exact Hin.
    + rewrite IHnone. split.
      * intros Hall d [<- | Hin]; [exact H0 | apply Hall; exact Hin].
      * intros Hall d Hin. apply Hall. right. exact Hin.
Qed.

(** With both a tmc2209 and a tmc5160 section for the stepper, the search
    settles on tmc2209, the earlier one in TRINAMIC_DRIVERS. *)
Example find_driver_sample :
  AutotuneInit.find_driver (AutotuneInit.has_section sample_host) "stepper_x"
    AutotuneInit.TRINAMIC_DRIVERS = Some ("tmc2209", "tmc2209 stepper_x") /\
  AutotuneInit.__init__ sample_host
    = AutotuneInit.Fail
        (AutotuneInit.AttributeError "_set_driver_velocity_field_new").
Proof.
  split; reflexivity.
Qed.

(** ** The options the constructor reads *)

Lemma lift_done {A : Type} (r : result A) (a : A) :
  AutotuneInit.lift r = AutotuneInit.Done a -> r = Ok a.
Proof.
  destruct r; cbn; congruence.
Qed.

Lemma getint_in_range (c : Config.section) (name : string) (d lo hi v : Z) :
  lo <= d <= hi ->
  Config.getint c name (Some d) (Some lo) (Some hi) = Ok v ->
  lo <= v <= hi.
Proof.
  intros Hd. unfold Config.getint.
  destruct (Config.lookup name (Config.ints c)) as [w |].
  - destruct (Z.ltb_spec w lo); [discriminate |].
    destruct (Z.ltb_spec hi w); [discriminate |].
    intros Heq. injection Heq as <-. lia.
  - intros Heq. injection Heq as <-. exact Hd.
Qed.

Lemma getint_or_none_in_range
    (c : Config.section) (name : string) (lo hi : Z) (o : option Z) :
  AutotuneInit.getint_or_none c name (Some lo) (Some hi) = Ok o ->
  forall v, o = Some v -> lo <= v <= hi.
Proof.
  unfold AutotuneInit.getint_or_none, Config.getint.
  destruct (Config.lookup name (Config.ints c)) as [w |].
  - destruct (Z.ltb_spec w lo); [discriminate |].
    destruct (Z.ltb_spec hi w); [discriminate |].
    cbn [bind]. intros Heq v Hv. subst o. injection Heq as <-. lia.
  - intros Heq v Hv. subst o. discriminate Heq.
Qed.

Lemma getfloat_in_range
    (c : Config.section) (name : string) (d lo hi v : float) :
  (d <? lo)%float = false -> (hi <? d)%float = false ->
  Config.getfloat c name (Some d) (Some lo) (Some hi) = Ok v ->
  (v <? lo)%float = false /\ (hi <? v)%float = false.
Proof.
  intros Hlo Hhi. unfold Config.getfloat.
  destruct (Config.lookup name (Config.floats c)) as [w |].
  - destruct (w <? lo)%float eqn:H1; [discriminate |].
    destruct (hi <? w)%float eqn:H2; [discriminate |].
    intros Heq.
    assert (Hw : w = v).
    { apply (f_equal (fun r => match r with Ok x => x | Raise _ => w end)) in Heq.
      exact Heq. }
    subst v. split; assumption.
  - intros Heq.
    assert (Hw : d = v).
    { apply (f_equal (fun r => match r with Ok x => x | Raise _ => d end)) in Heq.
      exact Heq. }
    subst v. split; assumption.
Qed.

Lemma pwm_default_in_range (driver_type : string) (f : float) :
  Config.lookup driver_type AutotuneInit.PWM_FREQ_TARGETS = Some f ->
  (f <? 10e3)%float = false /\ (100e3 <? f)%float = false.
Proof.
  unfold AutotuneInit.PWM_FREQ_TARGETS. cbn [Config.lookup].
  repeat match goal with
         | |- context [if ?b then _ else _] => destruct b
         end;
    intros Heq; try discriminate Heq;
    (assert (Hf : f = 55e3%float \/ f = 20e3%float)
       by (apply (f_equal (fun o => match o with Some x => x | None => f end))
             in Heq; cbv beta iota in Heq; subst f; auto));
    destruct Hf as [-> | ->]; split; reflexivity.
Qed.

(** X17: every object the parameter block of the constructor builds has
    its options inside the configured ranges: extra_hysteresis in [0,8],
    tbl in [0,3], toff in [1,15] when set, the voltage not below 0 nor
    above 60, the target frequency not below 10 kHz nor above 100 kHz
    (the per-driver default included); its goal is the enum member named
    by the lower-cased option (default 'auto'), its motor name is
    "motor_constants " followed by the motor option, and it starts with
    [auto_silent] off and no clock frequency, motor object, driver object
    or command helper. *)
Theorem read_parameters_ranges
    (h : AutotuneInit.host) (name driver_type driver_name : string)
    (self : AutotuneTMC.t) :
  AutotuneInit.read_parameters h name driver_type driver_name
    = AutotuneInit.Done self ->
  AutotuneTMC.name self = name /\
  AutotuneTMC.driver_name self = driver_name /\
  AutotuneTMC.tmc_object self = None /\
  AutotuneTMC.tmc_cmdhelper self = None /\
  (exists motor,
      Config.lookup "motor" (AutotuneInit.strings h) = Some motor /\
      AutotuneTMC.motor_name self = ("motor_constants " ++ motor)%string) /\
  (exists tgoal,
      AutotuneInit.get_string h "tuning_goal" (Some AutotuneTMC.TUNING_GOAL)
        = Ok tgoal /\
      AutotuneTMC.TuningGoal_of (lower tgoal)
        = Ok (AutotuneTMC.tuning_goal self)) /\
  AutotuneTMC.auto_silent self = false /\
  AutotuneTMC.fclk self = None /\
  AutotuneTMC.motor_object self = None /\
  0 <= AutotuneTMC.extra_hysteresis self <= 8 /\
  0 <= AutotuneTMC.tbl self <= 3 /\
  (forall v, AutotuneTMC.toff self = Some v -> 1 <= v <= 15) /\
  (AutotuneTMC.voltage self <? 0)%float = false /\
  (60 <? AutotuneTMC.voltage self)%float = false /\
  (AutotuneTMC.pwm_freq_target self <? 10e3)%float = false /\
  (100e3 <? AutotuneTMC.pwm_freq_target self)%float = false.
Proof.
  unfold AutotuneInit.read_parameters. intros H.
  repeat match type of H with
         | AutotuneInit.obind ?c _ = _ =>
             let E := fresh "E" in
             destruct c eqn:E; cbn [AutotuneInit.obind] in H;
             [| discriminate H]
         end.
  repeat match goal with
         | E : AutotuneInit.lift _ = AutotuneInit.Done _ |- _ =>
             apply lift_done in E
         end.
  assert (Hself : self = _) by (symmetry; injection H as H; exact H).
  clear H. subst self. cbn.
  match goal with
  | E : Config.getint _ "extra_hysteresis" _ _ _ = Ok _ |- _ =>
      apply getint_in_range in E; [| unfold AutotuneTMC.EXTRA_HYSTERESIS; lia]
  end.
  match goal with
  | E : Config.getint _ "tbl" _ _ _ = Ok _ |- _ =>
      apply getint_in_range in E; [| lia]
  end.
  match goal with
  | E : AutotuneInit.getint_or_none _ "toff" _ _ = Ok _ |- _ =>
      pose proof (getint_or_none_in_range _ _ _ _ _ E) as Htoff
  end.
  match goal with
  | E : Config.getfloat _ "voltage" _ _ _ = Ok _ |- _ =>
      apply getfloat_in_range in E; [| reflexivity | reflexivity]
  end.
  match goal with
  | E : match Config.lookup driver_type _ with _ => _ end = _ |- _ =>
      destruct (Config.lookup driver_type AutotuneInit.PWM_FREQ_TARGETS)
        as [dflt |] eqn:Hdflt; [| discriminate E];
      assert (Hd : dflt = _)
        by (injection E as E; exact E);
      subst dflt; apply pwm_default_in_range in Hdflt
  end.
  match goal with
  | E : Config.getfloat _ "pwm_freq_target" _ _ _ = Ok _ |- _ =>
      apply getfloat_in_range in E; [| tauto | tauto]
  end.
  match goal with
  | E : AutotuneInit.get_string _ "motor" None = Ok ?m |- _ =>
      unfold AutotuneInit.get_string in E;
      destruct (Config.lookup "motor" (AutotuneInit.strings h)) as [mv |] eqn:Hm;
      [| discriminate E];
      assert (mv = m) by congruence; subst mv
  end.
  match goal with
  | E : match AutotuneTMC.TuningGoal_of ?x with _ => _ end = _ |- _ =>
      destruct (AutotuneTMC.TuningGoal_of x) as [g |] eqn:Hg;
      [| discriminate E];
      assert (Hgoal : g = _) by (injection E as E; exact E); subst g
  end.
  repeat split; try tauto; try lia.
  - eexists. split; reflexivity.
  - eexists. split; eassumption.
  - apply (Htoff v). assumption.
  - apply (Htoff v). assumption.
Qed.

Lemma is_space_2_then_space (a : nat) : AutotuneInit.is_space_2 a 32 = false.
Proof.
  unfold AutotuneInit.is_space_2. destruct (a =? 194)%nat; reflexivity.
Qed.

Lemma is_space_3_then_space (a c : nat) :
  AutotuneInit.is_space_3 a 32 c = false.
Proof.
  unfold AutotuneInit.is_space_3.
  destruct (a =? 225)%nat, (a =? 226)%nat, (a =? 227)%nat; reflexivity.
Qed.

Lemma is_space_3_space_last (a b : nat) :
  AutotuneInit.is_space_3 a b 32 = false.
Proof.
  unfold AutotuneInit.is_space_3.
  destruct (a =? 225)%nat, (a =? 226)%nat, (a =? 227)%nat,
    (b =? 154)%nat, (b =? 128)%nat, (b =? 129)%nat; reflexivity.
Qed.

(** A string that starts with no whitespace character has nothing to
    skip. *)
Lemma skip_spaces_none (s : string) :
  AutotuneInit.is_space s = 0%nat -> AutotuneInit.skip_spaces s = s.
Proof.
  destruct s as [| a [| b [| c r]]]; cbn [AutotuneInit.is_space
    AutotuneInit.skip_spaces]; try reflexivity.
  - destruct (AutotuneInit.is_space_1 (nat_of_ascii a));
      [discriminate | reflexivity].
  - destruct (AutotuneInit.is_space_1 (nat_of_ascii a)); [discriminate |].
    destruct (AutotuneInit.is_space_2 (nat_of_ascii a) (nat_of_ascii b));
      [discriminate | reflexivity].
  - destruct (AutotuneInit.is_space_1 (nat_of_ascii a)); [discriminate |].
    destruct (AutotuneInit.is_space_2 (nat_of_ascii a) (nat_of_ascii b));
      [discriminate |].
    destruct (AutotuneInit.is_space_3 (nat_of_ascii a) (nat_of_ascii b)
                (nat_of_ascii c)); [discriminate | reflexivity].
Qed.

(** A space appended to a word completes no whitespace character that
    starts inside the word. *)
Lemma is_space_before_space (c : ascii) (w r : string) :
  AutotuneInit.is_space (String c w) = 0%nat ->
  AutotuneInit.is_space (String c w ++ String " " r)%string = 0%nat.
Proof.
  destruct w as [| b [| d w']]; cbn [AutotuneInit.is_space String.append];
    change (nat_of_ascii " ") with 32%nat.
  - destruct (AutotuneInit.is_space_1 (nat_of_ascii c)); [discriminate |].
    intros _. rewrite is_space_2_then_space.
    destruct r as [| e r']; [reflexivity |].
    rewrite is_space_3_then_space. reflexivity.
  - destruct (AutotuneInit.is_space_1 (nat_of_ascii c)); [discriminate |].
    destruct (AutotuneInit.is_space_2 (nat_of_ascii c) (nat_of_ascii b));
      [discriminate |].
    intros _. rewrite is_space_3_space_last. reflexivity.
  - intros H. exact H.
Qed.

Lemma no_space_head (c : ascii) (w : string) :
  no_space (String c w) = true ->
  AutotuneInit.is_space (String c w) = 0%nat /\ no_space w = true.
Proof.
  cbn [no_space]. intros H. apply andb_true_iff in H.
  destruct H as [Hc Hw]. apply Nat.eqb_eq in Hc. split; assumption.
Qed.

Lemma span_word_before_space (w r : string) :
  no_space w = true ->
  AutotuneInit.span_word (w ++ String " " r)%string = (w, String " " r).
Proof.
  induction w as [| c w IH]; intros H.
  - reflexivity.
  - apply no_space_head in H. destruct H as [Hc Hw].
    pose proof (is_space_before_space c w r Hc) as Hs.
    cbn [String.append] in Hs |- *.
    cbn [AutotuneInit.span_word]. rewrite Hs, (IH Hw). reflexivity.
Qed.

(** X18: for a section name made of two words joined by one space, neither
    word holding a whitespace character of [str.split] (ASCII or not),
    [split(None, 1)] gives back the two words, so the name the constructor
    keeps is the second one. *)
Theorem split_1_two_words (prefix word : string) :
  no_space prefix = true -> prefix <> "" ->
  no_space word = true -> word <> "" ->
  AutotuneInit.split_1 (prefix ++ " " ++ word)%string = [prefix; word] /\
  AutotuneInit.last_item (AutotuneInit.split_1 (prefix ++ " " ++ word)%string)
    = AutotuneInit.Done word.
Proof.
  intros Hp Hpne Hw Hwne.
  assert (Hsplit : AutotuneInit.split_1 (prefix ++ " " ++ word)%string
                   = [prefix; word]).
  { unfold AutotuneInit.split_1.
    destruct prefix as [| c p]; [congruence |].
    destruct word as [| d w]; [congruence |].
    pose proof (no_space_head c p Hp) as [Hc _].
    pose proof (no_space_head d w Hw) as [Hd _].
    change (" " ++ String d w)%string with (String " " (String d w)).
    rewrite (skip_spaces_none _ (is_space_before_space c p (String d w) Hc)).
    pose proof (span_word_before_space (String c p) (String d w) Hp) as Hspan.
    cbn [String.append] in Hspan |- *. cbv iota. rewrite Hspan.
    change (AutotuneInit.skip_spaces (String " " (String d w)))
      with (AutotuneInit.skip_spaces (String d w)).
    rewrite (skip_spaces_none _ Hd). reflexivity. }
  split; [exact Hsplit |]. rewrite Hsplit. reflexivity.
Qed.

(** The section [autotune_tmc stepper_x]. *)
Lemma split_1_two_words_witness :
  AutotuneInit.split_1 "autotune_tmc stepper_x"
    = ["autotune_tmc"; "stepper_x"] /\
  AutotuneInit.last_item (AutotuneInit.split_1 "autotune_tmc stepper_x")
    = AutotuneInit.Done "stepper_x".
Proof.
  apply (split_1_two_words "autotune_tmc" "stepper_x");
    [reflexivity | discriminate | reflexivity | discriminate].
Defined.

(** A no-break space (U+00A0, bytes C2 A0) splits a section name as a
    space does, also when it is all that separates the two words. *)
Example split_1_no_break_space :
  let nbsp := String (ascii_of_nat 194) (String (ascii_of_nat 160) "") in
  AutotuneInit.split_1 ("autotune_tmc" ++ nbsp ++ "stepper_x")%string
    = ["autotune_tmc"; "stepper_x"] /\
  AutotuneInit.split_1 ("autotune_tmc stepper" ++ nbsp ++ "x")%string
    = ["autotune_tmc"; ("stepper" ++ nbsp ++ "x")%string] /\
  no_space ("stepper" ++ nbsp ++ "x")%string = false.
Proof.
  repeat split; reflexivity.
Qed.

(** The options of the sample host, read for a tmc2209. *)
Lemma read_parameters_ranges_witness :
  AutotuneTMC.name sample_parameters = "stepper_x" /\
  AutotuneTMC.driver_name sample_parameters = "tmc2209 stepper_x" /\
  AutotuneTMC.tmc_object sample_parameters = None /\
  AutotuneTMC.tmc_cmdhelper sample_parameters = None /\
  (exists motor,
      Config.lookup "motor" (AutotuneInit.strings sample_host) = Some motor /\
      AutotuneTMC.motor_name sample_parameters
        = ("motor_constants " ++ motor)%string) /\
  (exists tgoal,
      AutotuneInit.get_string sample_host "tuning_goal"
        (Some AutotuneTMC.TUNING_GOAL) = Ok tgoal /\
      AutotuneTMC.TuningGoal_of (lower tgoal)
        = Ok (AutotuneTMC.tuning_goal sample_parameters)) /\
  AutotuneTMC.auto_silent sample_parameters = false /\
  AutotuneTMC.fclk sample_parameters = None /\
  AutotuneTMC.motor_object sample_parameters = None /\
  0 <= AutotuneTMC.extra_hysteresis sample_parameters <= 8 /\
  0 <= AutotuneTMC.tbl sample_parameters <= 3 /\
  (forall v, AutotuneTMC.toff sample_parameters = Some v -> 1 <= v <= 15) /\
  (AutotuneTMC.voltage sample_parameters <? 0)%float = false /\
  (60 <? AutotuneTMC.voltage sample_parameters)%float = false /\
  (AutotuneTMC.pwm_freq_target sample_parameters <? 10e3)%float = false /\
  (100e3 <? AutotuneTMC.pwm_freq_target sample_parameters)%float = false.
Proof.
  exact (read_parameters_ranges sample_host "stepper_x" "tmc2209"
           "tmc2209 stepper_x" sample_parameters eq_refl).
Defined.

(** ** Clamps *)

Lemma compare_cont_swap (p q : positive) :
  Pos.compare_cont Eq p q = CompOpp (Pos.compare_cont Eq q p).
Proof.
  rewrite Pos.compare_cont_antisym. reflexivity.
Qed.

Lemma SFltb_asym (x y : spec_float) :
  SFltb x y = true -> SFltb y x = false.
Proof.
  unfold SFltb, SFcompare.
  destruct x as [sx | sx | | sx mx ex]; try destruct sx;
    destruct y as [sy | sy | | sy my ey]; try destruct sy;
    try reflexivity; try discriminate.
  - rewrite (Z.compare_antisym ex ey).
    destruct (ex ?= ey) eqn:He; cbn [CompOpp]; try reflexivity;
      try discriminate.
    rewrite (compare_cont_swap my mx). cbn [CompOpp].
    destruct (Pos.compare_cont Eq mx my); cbn [CompOpp];
      try reflexivity; discriminate.
  - rewrite (Z.compare_antisym ex ey).
    destruct (ex ?= ey) eqn:He; cbn [CompOpp]; try reflexivity;
      try discriminate.
    rewrite (compare_cont_swap my mx). cbn [CompOpp].
    destruct (Pos.compare_cont Eq mx my); cbn [CompOpp];
      try reflexivity; discriminate.
Qed.

Lemma ltb_asym (x y : float) :
  (x <? y)%float = true -> (y <? x)%float = false.
Proof.
  rewrite !ltb_spec. apply SFltb_asym.
Qed.

Lemma silent_clamp_range (target : float) :
  let v := Py.max 15e3 (Py.min target 20e3) in
  (v <? 15e3)%float = false /\ (20e3 <? v)%float = false.
Proof.
  cbv zeta. unfold Py.max, Py.min.
  destruct (20e3 <? target)%float eqn:Hhi.
  - split; reflexivity.
  - destruct (15e3 <? target)%float eqn:Hlo.
    + split; [apply ltb_asym; exact Hlo | exact Hhi].
    + split; reflexivity.
Qed.

(** X19: under SILENT the frequency the tuning procedure applies never
    compares below 15 kHz nor above 20 kHz, whatever the stored target is,
    inside its configured range or not (a NaN target is applied as
    15 kHz). *)
Theorem tune_driver_silent_range (self : AutotuneTMC.t) :
  AutotuneTMC.tuning_goal self = AutotuneTMC.SILENT ->
  exists log v,
    AutotuneTMC.tune_driver self = Ok (tt, self, log) /\
    applied "pwm_freq" log = Some (AutotuneTMC.VFloat v) /\
    (v <? 15e3)%float = false /\ (20e3 <? v)%float = false.
Proof.
  intros Hgoal.
  destruct self as [n mn g a f mo eh tb tf vo pf dn tob tch]. cbn in Hgoal. subst g.
  do 2 eexists. split; [reflexivity |]. split; [reflexivity |].
  apply silent_clamp_range.
Qed.

(** X20: whether [hysteresis] returns does not depend on [extra]: for any
    two values of [extra], all else equal, it raises the same exception at
    both or returns at both; and when it returns, raising [extra] lowers
    neither hstart nor hend, whose sum grows by no more than the increase
    of [extra]. *)
Theorem hysteresis_monotone_in_extra
    (self : MotorConstants.t) (e1 e2 : Z) (fclk volts current : float)
    (tbl toff : Z) :
  match MotorConstants.hysteresis self e1 fclk volts current tbl toff with
  | Raise err =>
      MotorConstants.hysteresis self e2 fclk volts current tbl toff
        = Raise err
  | Ok (a, b) =>
      exists c d,
        MotorConstants.hysteresis self e2 fclk volts current tbl toff
          = Ok (c, d) /\
        (e1 <= e2 -> a <= c /\ b <= d /\ (c + d) - (a + b) <= e2 - e1)
  end.
Proof.
  unfold MotorConstants.hysteresis, MotorConstants.hysteresis_raw.
  destruct (MotorConstants.hysteresis_operand self fclk volts current
              tbl toff) as [x |]; [| reflexivity].
  cbn [bind].
  destruct (math_ceil x) as [n |]; [| reflexivity].
  cbn [bind].
  unfold MotorConstants.htotal_of, MotorConstants.hstrt_of,
    MotorConstants.hend_of.
  do 2 eexists. split; [reflexivity |]. lia.
Qed.

(** The sample axis, SILENT with a 55 kHz target. *)
Lemma tune_driver_silent_range_witness :
  exists log v,
    AutotuneTMC.tune_driver sample_axis = Ok (tt, sample_axis, log) /\
    applied "pwm_freq" log = Some (AutotuneTMC.VFloat v) /\
    (v <? 15e3)%float = false /\ (20e3 <? v)%float = false.
Proof.
  exact (tune_driver_silent_range sample_axis eq_refl).
Defined.

(** The sample motor, from extra = 0, which returns (4, 3), to extra = 8. *)
Lemma hysteresis_monotone_in_extra_witness :
  exists c d,
    MotorConstants.hysteresis sample_motor 8 12.5e6 24.0 0.0 1 3
      = Ok (c, d) /\
    (0 <= 8 -> 4 <= c /\ 3 <= d /\ (c + d) - (4 + 3) <= 8 - 0).
Proof.
  exact (hysteresis_monotone_in_extra sample_motor 0 8 12.5e6 24.0 0.0 1 3).
Defined.

(** The sample motor without inductance raises ZeroDivisionError at
    extra = 8 as it does at extra = 0. *)
Example hysteresis_raises_whatever_extra :
  MotorConstants.hysteresis zero_inductance_motor 0 12.5e6 24.0 0.0 1 3
    = Raise ZeroDivisionError /\
  MotorConstants.hysteresis zero_inductance_motor 8 12.5e6 24.0 0.0 1 3
    = Raise ZeroDivisionError.
Proof.
  split; reflexivity.
Qed.

(** ** From connect to the first tuning run *)

(** X21: for an axis configured with the goal AUTO whose driver object,
    command helper and motor are found, connect followed by ready applies
    the seven fields of a tuning run, with stealthChop enabled exactly
    when the axis is outside AUTO_PERFORMANCE_MOTORS and the motor torque
    compares above 0.3, and spreadCycle enabled otherwise; the object then
    holds that decision in [auto_silent], the driver object and a clock
    frequency. *)
Theorem connect_then_ready_applies_resolution
    (printer : AutotuneTMC.Printer)
    (tmc_frequency : option (option float))
    (self : AutotuneTMC.t) (motor : MotorConstants.t)
    (driver helper : AutotuneTMC.host_object) :
  AutotuneTMC.tuning_goal self = AutotuneTMC.AUTO ->
  AutotuneTMC.drivers printer (AutotuneTMC.driver_name self) = Some driver ->
  AutotuneTMC.get_status_self printer driver = Ok helper ->
  AutotuneTMC.motors printer (AutotuneTMC.motor_name self) = Some motor ->
  let silent :=
    negb (AutotuneTMC.in_set (AutotuneTMC.name self)
            AutotuneTMC.AUTO_PERFORMANCE_MOTORS)
    && (0.3 <? MotorConstants.T motor)%float in
  exists self' log,
    AutotuneTMC.mbind (AutotuneTMC.handle_connect printer)
      (fun _ => AutotuneTMC.handle_ready tmc_frequency) self
      = Ok (tt, self', log) /\
    fields_of log = ["en_pwm_mode"; "en_spreadcycle"; "pwm_freq";
                     "semax"; "semin"; "seup"; "sedn"] /\
    applied "en_pwm_mode" log = Some (AutotuneTMC.VBool silent) /\
    applied "en_spreadcycle" log = Some (AutotuneTMC.VBool (negb silent)) /\
    AutotuneTMC.auto_silent self' = silent /\
    AutotuneTMC.tuning_goal self' =
      (if silent then AutotuneTMC.SILENT else AutotuneTMC.PERFORMANCE) /\
    AutotuneTMC.tmc_object self' = Some driver /\
    AutotuneTMC.fclk self' <> None.
Proof.
  intros Hgoal Hdriver Hhelper Hmotor. cbv zeta.
  unfold AutotuneTMC.mbind at 1.
  rewrite (handle_connect_driver_found printer self driver helper
             Hdriver Hhelper), Hmotor, Hgoal.
  cbv zeta.
  destruct (negb (AutotuneTMC.in_set (AutotuneTMC.name self)
                    AutotuneTMC.AUTO_PERFORMANCE_MOTORS)
            && (0.3 <? MotorConstants.T motor)%float);
    destruct self as [n mn g a f mo eh tb tf vo pf dn tob tch];
    unfold AutotuneTMC.handle_ready;
    (destruct tmc_frequency as [[v |] |]; [| | destruct f as [v |]]);
    do 2 eexists; (split; [reflexivity |]); cbn;
    repeat split; discriminate.
Qed.

(** A Z axis with the 0.5 N.m sample motor, no clock frequency answered. *)
Lemma connect_then_ready_applies_resolution_witness :
  exists self' log,
    AutotuneTMC.mbind (AutotuneTMC.handle_connect sample_printer)
      (fun _ => AutotuneTMC.handle_ready None) (unconnected_axis "stepper_z")
      = Ok (tt, self', log) /\
    fields_of log = ["en_pwm_mode"; "en_spreadcycle"; "pwm_freq";
                     "semax"; "semin"; "seup"; "sedn"] /\
    applied "en_pwm_mode" log = Some (AutotuneTMC.VBool true) /\
    applied "en_spreadcycle" log = Some (AutotuneTMC.VBool false) /\
    AutotuneTMC.auto_silent self' = true /\
    AutotuneTMC.tuning_goal self' = AutotuneTMC.SILENT /\
    AutotuneTMC.tmc_object self' = Some "tmc2209 stepper_z" /\
    AutotuneTMC.fclk self' <> None.
Proof.
  exact (connect_then_ready_applies_resolution sample_printer None
           (unconnected_axis "stepper_z") sample_motor
           "tmc2209 stepper_z" "tmc2209 stepper_z helper"
           eq_refl eq_refl eq_refl eq_refl).
Defined.
